(** * Phaser.BitmapData: pixel access, dirty tracking and the canvas facade

    A shallow embedding of [src/gameobjects/BitmapData.js].  The surface
    object, the PIXI upload queue and the sprites it is bound to form the
    state; every prototype method is a computation in a small state and
    exception monad, written statement by statement after the JavaScript.
    The 2D drawing context is an external collaborator: the model records
    the calls and property assignments it receives, in order, and takes
    what it answers ([getImageData]) as an explicit argument.  Calls into
    collaborators (the context, a gradient, a sprite, the PIXI queue) are
    taken to complete normally; the only exception raised is the one the
    file's own code can cause, a property read on [undefined].  Pixel
    coordinates, channel values and dimensions are integral numbers, and
    [y * width + x] is computed exactly, as JavaScript does for values
    below [2 ^ 53]; statements that compare two such indices say so. *)

From stdpp Require Import base numbers list gmap strings.

Local Open Scope Z_scope.

(** ** 32-bit integer operators of JavaScript *)

Module Int32.

Definition two32 : Z := 2 ^ 32.
Definition two31 : Z := 2 ^ 31.

(** [ToUint32] and [ToInt32] on an integral number. *)
Definition ToUint32 (z : Z) : Z := z mod two32.

Definition ToInt32 (z : Z) : Z :=
  let m := z mod two32 in
  if two31 <=? m then m - two32 else m.

(** [a << n]: the left operand is taken as an int32, the shift count is
    masked to five bits and the result wraps to an int32 again. *)
Definition shl (a n : Z) : Z :=
  ToInt32 (Z.shiftl (ToInt32 a) (Z.land (ToUint32 n) 31)).

(** [a | b] on int32 operands. *)
Definition bor (a b : Z) : Z :=
  ToInt32 (Z.lor (ToInt32 a) (ToInt32 b)).

(** Byte [k] (0 is the least significant) of a 32-bit word. *)
Definition byte_of (k : Z) (w : Z) : Z :=
  Z.land (Z.shiftr (ToUint32 w) (8 * k)) 255.

(** The word [w] with its byte [k] replaced by [b]. *)
Definition with_byte (k : Z) (b : Z) (w : Z) : Z :=
  let u := ToUint32 w in
  let hole := Z.land u (Z.lnot (Z.shiftl 255 (8 * k))) in
  ToInt32 (Z.lor hole (Z.shiftl (Z.land b 255) (8 * k))).

(** Conversion performed by a store into a [Uint8ClampedArray]. *)
Definition clamp8 (v : Z) : Z :=
  if v <? 0 then 0 else if 255 <? v then 255 else v.

End Int32.

(** ** Values that cross the facade *)

(** Numbers handed to the drawing context.  The facade never inspects
    them, so the few expressions it builds ([Math.PI*2], the control
    points of [ellipse]) are kept symbolic; no floating-point evaluation
    is modelled. *)
Inductive number : Type :=
| Int (z : Z)
| Dec (literal : string)
| PI
| Plus (a b : number)
| Minus (a b : number)
| Times (a b : number)
| Over (a b : number).

(** What [context.getImageData] answers: the RGBA bytes of the region,
    kept four to a little-endian 32-bit word (one entry per pixel, row
    major), and whether [data.buffer] is defined on this platform. *)
Record ImageData : Type := mkImageData {
  data : list Z;
  has_buffer : bool
}.

Inductive GradientShape : Type :=
| Linear (x0 y0 x1 y1 : number)
| Radial (x0 y0 r0 x1 y1 r1 : number).

#[warnings="-register-all"]
Inductive Value : Type :=
| undefined
| boolean (b : bool)
| num (n : number)
| str (s : string)
| gradient (shape : GradientShape) (stops : list (Value * Value))
| image (d : ImageData)
| this.

(** ** The drawing context, as the sequence of requests it receives *)

Inductive Call : Type :=
| ctx_arc (x y radius startAngle endAngle : number) (anticlockwise : bool)
| ctx_arcTo (x1 y1 x2 y2 radius : number)
| ctx_beginPath
| ctx_bezierCurveTo (cp1x cp1y cp2x cp2y x y : number)
| ctx_clearRect (x y width height : number)
| ctx_clip
| ctx_closePath
| ctx_createLinearGradient (x y width height : number)
| ctx_createRadialGradient (x0 y0 r0 x1 y1 r1 : number)
| ctx_fill
| ctx_fillRect (x y width height : number)
| ctx_getImageData (x y width height : number)
| ctx_lineTo (x y : number)
| ctx_moveTo (x y : number)
| ctx_putImageData (d : ImageData) (x y : number)
| ctx_quadraticCurveTo (cpx cpy x y : number)
| ctx_rect (x y width height : number)
| ctx_restore
| ctx_rotate (angle : number)
| ctx_save
| ctx_scale (x y : number)
| ctx_scrollPathIntoView
| ctx_stroke
| ctx_strokeRect (x y width height : number)
| ctx_assign (property : string) (v : Value).

(** ** Collaborators outside this file *)

(** Modelled from the spec: the renderer-mode constants ([Phaser.CANVAS],
    [Phaser.WEBGL], [Phaser.HEADLESS]) are declared elsewhere in the
    engine; [render] only compares [game.renderType] with [Phaser.WEBGL]. *)
Inductive RenderType : Type := CANVAS | WEBGL | HEADLESS.

Definition RenderType_eqb (a b : RenderType) : bool :=
  match a, b with
  | CANVAS, CANVAS | WEBGL, WEBGL | HEADLESS, HEADLESS => true
  | _, _ => false
  end.

(** Modelled from the spec: [Phaser.Game] is declared elsewhere; of a game
    this file reads [renderType] and calls [rnd.uuid()], whose answer the
    constructor below takes as an argument. *)
Record Game : Type := mkGame { renderType : RenderType }.

(** Modelled from the spec: [Phaser.Canvas.create(width, height)],
    [new PIXI.BaseTexture(canvas)] and [new PIXI.Texture(baseTexture)] are
    defined in other files; each handle is kept as the arguments of the
    call that makes it. *)
Record Canvas : Type := mkCanvas { canvas_width : Z; canvas_height : Z }.

Record BaseTexture : Type := mkBaseTexture { source : Canvas }.

Record Texture : Type := mkTexture { base : BaseTexture }.

(** Modelled from the spec: [new Phaser.Frame(index, x, y, width, height,
    name, uuid)], defined in another file, kept as its arguments. *)
Record Frame : Type := mkFrame {
  frame_index : Z;
  frame_x : Z;
  frame_y : Z;
  frame_width : Z;
  frame_height : Z;
  frame_name : string;
  frame_uuid : string
}.

(** Modelled from the spec: [Phaser.BITMAPDATA], the type tag stored in
    [this.type], is a constant of the engine declared outside this file. *)
Inductive ObjectType : Type := BITMAPDATA.

(** Modelled from the spec: a sprite-like consumer, declared elsewhere; the
    surface tests its [texture] property and calls its [loadTexture]. *)
Record Sprite : Type := mkSprite {
  sprite_id : nat;
  sprite_texture : bool   (* truthiness of [sprite.texture] *)
}.

(** ** The surface *)

(** What [this.pixels] refers to.  It is never a copy: it is the buffer of
    [this.imageData], its byte array, or an [Int32Array] laid over that
    buffer, so a store through it is a store into [this.imageData]. *)
Inductive Pixels : Type :=
| BufferObject (own : gmap Z Z)
    (* [imageData.data.buffer], a plain [ArrayBuffer]: an indexed
       assignment creates an own property and leaves the bytes alone *)
| ByteArray
    (* [imageData.data] itself *)
| Int32View
    (* [new Int32Array(imageData.data.buffer)] *)
| Int32Detached
    (* [new Int32Array(undefined)]: an empty array *).

Record BitmapData : Type := mkBitmapData {
  game : Game;
  name : string;
  width : Z;
  height : Z;
  canvas : Canvas;
  context : list Call;
  imageData : ImageData;
  pixels : Pixels;
  data32 : option (list Z);   (* [None]: the property was never assigned *)
  baseTexture : BaseTexture;
  texture : Texture;
  textureFrame : Frame;
  type : ObjectType;
  _dirty : bool
}.

(** The surface together with the globals and consumers it acts on. *)
Record World : Type := mkWorld {
  self : BitmapData;
  texturesToUpdate : list BaseTexture;   (* [PIXI.texturesToUpdate] *)
  loadTexture : list nat                 (* sprites asked to load [this] *)
}.

(** ** Computations: state passing with exceptions *)

Inductive Error : Type := TypeError.

Inductive Completion (A : Type) : Type :=
| Normal (v : A)
| Throw (e : Error).
Arguments Normal {A} v.
Arguments Throw {A} e.

Definition JS (A : Type) : Type := World -> Completion A * World.

#[global] Instance JS_ret : MRet JS := fun A v w => (Normal v, w).

#[global] Instance JS_bind : MBind JS := fun A B f m w =>
  match m w with
  | (Normal v, w') => f v w'
  | (Throw e, w') => (Throw e, w')
  end.

#[global] Instance JS_throw : MThrow Error JS := fun A e w => (Throw e, w).

Definition completion {A} (r : Completion A * World) : Completion A := fst r.
Definition after {A} (r : Completion A * World) : World := snd r.

(** Field assignments on the surface. *)

Definition with_context (c : list Call) (b : BitmapData) : BitmapData :=
  mkBitmapData (game b) (name b) (width b) (height b) (canvas b) c
    (imageData b) (pixels b) (data32 b) (baseTexture b) (texture b)
    (textureFrame b) (type b) (_dirty b).

Definition with_imageData (d : ImageData) (b : BitmapData) : BitmapData :=
  mkBitmapData (game b) (name b) (width b) (height b) (canvas b) (context b)
    d (pixels b) (data32 b) (baseTexture b) (texture b)
    (textureFrame b) (type b) (_dirty b).

Definition with_pixels (p : Pixels) (b : BitmapData) : BitmapData :=
  mkBitmapData (game b) (name b) (width b) (height b) (canvas b) (context b)
    (imageData b) p (data32 b) (baseTexture b) (texture b)
    (textureFrame b) (type b) (_dirty b).

Definition with_dirty (d : bool) (b : BitmapData) : BitmapData :=
  mkBitmapData (game b) (name b) (width b) (height b) (canvas b) (context b)
    (imageData b) (pixels b) (data32 b) (baseTexture b) (texture b)
    (textureFrame b) (type b) d.

Definition with_self (b : BitmapData) (w : World) : World :=
  mkWorld b (texturesToUpdate w) (loadTexture w).

(** Primitive steps. *)

Definition read_this : JS BitmapData := fun w => (Normal (self w), w).

Definition update_this (f : BitmapData -> BitmapData) : JS unit :=
  fun w => (Normal tt, with_self (f (self w)) w).

(** [this._dirty = d] *)
Definition assign_dirty (d : bool) : JS unit := update_this (with_dirty d).

(** A request sent to [this.context]. *)
Definition send (c : Call) : JS unit :=
  update_this (fun b => with_context (context b ++ [c]) b).

(** [PIXI.texturesToUpdate.push(t)] *)
Definition push_texture (t : BaseTexture) : JS unit :=
  fun w => (Normal tt, mkWorld (self w) (texturesToUpdate w ++ [t]) (loadTexture w)).

(** [sprite.loadTexture(this)] *)
Definition sprite_loadTexture (s : Sprite) : JS unit :=
  fun w => (Normal tt,
            mkWorld (self w) (texturesToUpdate w) (loadTexture w ++ [sprite_id s])).

(** ** Stores and loads through [this.pixels] and [this.data32] *)

(** [view[idx] = v] on an [Int32Array] over the image: the value wraps to
    an int32; an index outside the array is ignored. *)
Definition int32_store (idx v : Z) (d : ImageData) : ImageData :=
  if (0 <=? idx) && (idx <? Z.of_nat (length (data d))) then
    mkImageData (<[Z.to_nat idx := Int32.ToInt32 v]> (data d)) (has_buffer d)
  else d.

(** [data[idx] = v] on the clamped byte array of the image: byte [idx]
    lives in word [idx / 4]; an index outside the array is ignored. *)
Definition byte_store (idx v : Z) (d : ImageData) : ImageData :=
  if (0 <=? idx) && (idx / 4 <? Z.of_nat (length (data d))) then
    mkImageData
      (alter (Int32.with_byte (idx mod 4) (Int32.clamp8 v)) (Z.to_nat (idx / 4)) (data d))
      (has_buffer d)
  else d.

(** [this.pixels[idx] = v] *)
Definition pixels_store (idx v : Z) (b : BitmapData) : BitmapData :=
  match pixels b with
  | BufferObject own => with_pixels (BufferObject (<[idx := v]> own)) b
  | ByteArray => with_imageData (byte_store idx v (imageData b)) b
  | Int32View => with_imageData (int32_store idx v (imageData b)) b
  | Int32Detached => b
  end.

(** [this.pixels[idx]], as a later read through the same reference sees it. *)
Definition pixels_load (idx : Z) (b : BitmapData) : option Z :=
  match pixels b with
  | BufferObject own => own !! idx
  | ByteArray =>
      if 0 <=? idx
      then Int32.byte_of (idx mod 4) <$> data (imageData b) !! Z.to_nat (idx / 4)
      else None
  | Int32View =>
      if 0 <=? idx then data (imageData b) !! Z.to_nat idx else None
  | Int32Detached => None
  end.

(** [this.data32[idx]]: a property access on [undefined] throws. *)
Definition data32_load (idx : Z) : JS Value :=
  b ← read_this;
  match data32 b with
  | None => mthrow TypeError
  | Some a =>
      mret (if 0 <=? idx
            then match a !! Z.to_nat idx with
                 | Some v => num (Int v)
                 | None => undefined
                 end
            else undefined)
  end.

(** [(alpha << 24) | (blue << 16) | (green << 8) | red] *)
Definition pack (red green blue alpha : Z) : Z :=
  Int32.bor (Int32.bor (Int32.bor (Int32.shl alpha 24) (Int32.shl blue 16))
                       (Int32.shl green 8))
            red.

(** ** The constructor *)

(** [new Phaser.BitmapData(game, width, height)].  [uuid] is what
    [game.rnd.uuid()] returns and [snapshot] what the first
    [context.getImageData(0, 0, width, height)] answers. *)
Definition Phaser_BitmapData (game : Game) (width height : option Z)
    (uuid : string) (snapshot : ImageData) : BitmapData :=
  let width := match width with None => 256 | Some v => v end in
  let height := match height with None => 256 | Some v => v end in
  let canvas := mkCanvas width height in
  let context := [ctx_getImageData (Int 0) (Int 0) (Int width) (Int height)] in
  let pixels := if has_buffer snapshot then BufferObject ∅ else ByteArray in
  let baseTexture := mkBaseTexture canvas in
  mkBitmapData game "" width height canvas context snapshot pixels None
    baseTexture (mkTexture baseTexture)
    (mkFrame 0 0 0 width height "bitmapData" uuid)
    BITMAPDATA false.

(** ** The methods of [Phaser.BitmapData.prototype] *)

Record Rectangle : Type := mkRectangle {
  rect_x : number;
  rect_y : number;
  rect_width : number;
  rect_height : number
}.

Module prototype.

Definition add (sprite : Sprite) : JS Value :=
  sprite_loadTexture sprite;;
  mret undefined.

Fixpoint addTo_from (sprites : list Sprite) : JS unit :=
  match sprites with
  | [] => mret tt
  | s :: rest =>
      (if sprite_texture s then sprite_loadTexture s else mret tt);;
      addTo_from rest
  end.

Definition addTo (sprites : list Sprite) : JS Value :=
  addTo_from sprites;;
  mret undefined.

Definition clear : JS Value :=
  b ← read_this;
  send (ctx_clearRect (Int 0) (Int 0) (Int (width b)) (Int (height b)));;
  assign_dirty true;;
  mret undefined.

(** [answer] is what [context.getImageData] returns. *)
Definition refreshBuffer (answer : ImageData) : JS Value :=
  b ← read_this;
  send (ctx_getImageData (Int 0) (Int 0) (Int (width b)) (Int (height b)));;
  update_this (with_imageData answer);;
  update_this (with_pixels (if has_buffer answer then Int32View else Int32Detached));;
  mret undefined.

Definition setPixel32 (x y red green blue alpha : Z) : JS Value :=
  b ← read_this;
  if (x >=? 0) && (x <=? width b) && (y >=? 0) && (y <=? height b) then
    update_this (pixels_store (y * width b + x) (pack red green blue alpha));;
    b' ← read_this;
    send (ctx_putImageData (imageData b') (Int 0) (Int 0));;
    assign_dirty true;;
    mret undefined
  else
    mret undefined.

Definition setPixel (x y red green blue : Z) : JS Value :=
  setPixel32 x y red green blue 255;;
  mret undefined.

Definition getPixel (x y : Z) : JS Value :=
  b ← read_this;
  if (x >=? 0) && (x <=? width b) && (y >=? 0) && (y <=? height b) then
    data32_load (y * width b + x)
  else
    mret undefined.

Definition getPixel32 (x y : Z) : JS Value :=
  b ← read_this;
  if (x >=? 0) && (x <=? width b) && (y >=? 0) && (y <=? height b) then
    data32_load (y * width b + x)
  else
    mret undefined.

(** [answer] is what [context.getImageData] returns. *)
Definition getPixels (rect : Rectangle) (answer : ImageData) : JS Value :=
  send (ctx_getImageData (rect_x rect) (rect_y rect) (rect_width rect) (rect_height rect));;
  mret (image answer).

Definition arc (x y radius startAngle endAngle : number)
    (anticlockwise : option bool) : JS Value :=
  let anticlockwise := match anticlockwise with None => false | Some v => v end in
  assign_dirty true;;
  send (ctx_arc x y radius startAngle endAngle anticlockwise);;
  mret this.

Definition arcTo (x1 y1 x2 y2 radius : number) : JS Value :=
  assign_dirty true;;
  send (ctx_arcTo x1 y1 x2 y2 radius);;
  mret this.

Definition fillStyle (color : Value) : JS Value :=
  send (ctx_assign "fillStyle" color);;
  mret this.

Definition strokeStyle (style : Value) : JS Value :=
  send (ctx_assign "strokeStyle" style);;
  mret this.

Definition createLinearGradient (x y width height : number) : JS Value :=
  send (ctx_createLinearGradient x y width height);;
  mret (gradient (Linear x y width height) []).

Definition createRadialGradient (x0 y0 r0 x1 y1 r1 : number) : JS Value :=
  send (ctx_createRadialGradient x0 y0 r0 x1 y1 r1);;
  mret (gradient (Radial x0 y0 r0 x1 y1 r1) []).

(** [for (i = 0; i < colors.length; i++) gradient.addColorStop(ratios[i], colors[i])] *)
Definition addColorStops (colors ratios : list Value) (g : Value) : Value :=
  match g with
  | gradient shape stops =>
      gradient shape
        (stops ++ imap (fun i c => (default undefined (ratios !! i), c)) colors)
  | v => v
  end.

Definition beginFill (color : Value) : JS Value :=
  fillStyle color;;
  mret this.

Definition beginLinearGradientFill (colors ratios : list Value)
    (x0 y0 x1 y1 : number) : JS Value :=
  g ← createLinearGradient x0 y0 x1 y1;
  fillStyle (addColorStops colors ratios g);;
  mret this.

Definition beginLinearGradientStroke (colors ratios : list Value)
    (x0 y0 x1 y1 : number) : JS Value :=
  g ← createLinearGradient x0 y0 x1 y1;
  strokeStyle (addColorStops colors ratios g);;
  mret this.

Definition beginRadialGradientStroke (colors ratios : list Value)
    (x0 y0 r0 x1 y1 r1 : number) : JS Value :=
  g ← createRadialGradient x0 y0 r0 x1 y1 r1;
  strokeStyle (addColorStops colors ratios g);;
  mret this.

Definition beginPath : JS Value :=
  send ctx_beginPath;;
  mret this.

Definition beginStroke (color : Value) : JS Value :=
  strokeStyle color;;
  mret this.

Definition bezierCurveTo (cp1x cp1y cp2x cp2y x y : number) : JS Value :=
  assign_dirty true;;
  send (ctx_bezierCurveTo cp1x cp1y cp2x cp2y x y);;
  mret this.

Definition circle (x y radius : number) : JS Value :=
  arc x y radius (Int 0) (Times PI (Int 2)) None;;
  mret this.

Definition clearRect (x y width height : number) : JS Value :=
  assign_dirty true;;
  send (ctx_clearRect x y width height);;
  mret this.

Definition clip : JS Value :=
  assign_dirty true;;
  send ctx_clip;;
  mret this.

Definition closePath : JS Value :=
  assign_dirty true;;
  send ctx_closePath;;
  mret this.

Definition moveTo (x y : number) : JS Value :=
  send (ctx_moveTo x y);;
  mret this.

Definition ellipse (x y w h : number) : JS Value :=
  let k := Dec "0.5522848" in
  let ox := Times (Over w (Int 2)) k in
  let oy := Times (Over h (Int 2)) k in
  let xe := Plus x w in
  let ye := Plus y h in
  let xm := Plus x (Over w (Int 2)) in
  let ym := Plus y (Over h (Int 2)) in
  moveTo x ym;;
  bezierCurveTo x (Minus ym oy) (Minus xm ox) y xm y;;
  bezierCurveTo (Plus xm ox) y xe (Minus ym oy) xe ym;;
  bezierCurveTo xe (Plus ym oy) (Plus xm ox) ye xm ye;;
  bezierCurveTo (Minus xm ox) ye x (Plus ym oy) x ym;;
  mret this.

Definition fill : JS Value :=
  assign_dirty true;;
  send ctx_fill;;
  mret this.

Definition fillRect (x y width height : number) : JS Value :=
  assign_dirty true;;
  send (ctx_fillRect x y width height);;
  mret this.

Definition font (font : Value) : JS Value :=
  send (ctx_assign "font" font);;
  mret this.

Definition globalAlpha (alpha : Value) : JS Value :=
  send (ctx_assign "globalAlpha" alpha);;
  mret this.

Definition globalCompositeOperation (operation : Value) : JS Value :=
  send (ctx_assign "globalCompositeOperation" operation);;
  mret this.

Definition lineCap (style : Value) : JS Value :=
  send (ctx_assign "lineCap" style);;
  mret this.

Definition lineDashOffset (offset : Value) : JS Value :=
  send (ctx_assign "lineDashOffset" offset);;
  mret this.

Definition lineJoin (join : Value) : JS Value :=
  send (ctx_assign "lineJoin" join);;
  mret this.

Definition lineWidth (width : Value) : JS Value :=
  send (ctx_assign "lineWidth" width);;
  mret this.

Definition miterLimit (limit : Value) : JS Value :=
  send (ctx_assign "miterLimit" limit);;
  mret this.

Definition lineTo (x y : number) : JS Value :=
  assign_dirty true;;
  send (ctx_lineTo x y);;
  mret this.

Definition quadraticCurveTo (cpx cpy x y : number) : JS Value :=
  assign_dirty true;;
  send (ctx_quadraticCurveTo cpx cpy x y);;
  mret this.

Definition rect (x y width height : number) : JS Value :=
  assign_dirty true;;
  send (ctx_rect x y width height);;
  mret this.

Definition restore : JS Value :=
  assign_dirty true;;
  send ctx_restore;;
  mret this.

Definition rotate (angle : number) : JS Value :=
  assign_dirty true;;
  send (ctx_rotate angle);;
  mret this.

(** The fifth parameter, [ignoreScale], is overwritten and never read. *)
Definition setStrokeStyle (thickness caps joints limit ignoreScale : Value) : JS Value :=
  let thickness := match thickness with undefined => num (Int 1) | v => v end in
  let caps := match caps with undefined => str "butt" | v => v end in
  let joints := match joints with undefined => str "miter" | v => v end in
  let limit := match limit with undefined => num (Int 10) | v => v end in
  lineWidth thickness;;
  lineCap caps;;
  lineJoin joints;;
  miterLimit limit;;
  mret this.

Definition save : JS Value :=
  assign_dirty true;;
  send ctx_save;;
  mret this.

Definition scale (x y : number) : JS Value :=
  assign_dirty true;;
  send (ctx_scale x y);;
  mret this.

Definition scrollPathIntoView : JS Value :=
  assign_dirty true;;
  send ctx_scrollPathIntoView;;
  mret this.

Definition stroke : JS Value :=
  assign_dirty true;;
  send ctx_stroke;;
  mret this.

Definition strokeRect (x y width height : number) : JS Value :=
  assign_dirty true;;
  send (ctx_strokeRect x y width height);;
  mret this.

Definition render : JS Value :=
  b ← read_this;
  if _dirty b then
    (if RenderType_eqb (renderType (game b)) WEBGL
     then push_texture (baseTexture b)
     else mret tt);;
    assign_dirty false;;
    mret undefined
  else
    mret undefined.

End prototype.

(** ** Method calls as data *)

(** One constructor per prototype method; the EaselJS aliases ([mt], [lt],
    [dc], ...) are the same function objects under a second name. *)
Inductive MethodCall : Type :=
| call_add (sprite : Sprite)
| call_addTo (sprites : list Sprite)
| call_clear
| call_refreshBuffer (answer : ImageData)
| call_setPixel32 (x y red green blue alpha : Z)
| call_setPixel (x y red green blue : Z)
| call_getPixel (x y : Z)
| call_getPixel32 (x y : Z)
| call_getPixels (rect : Rectangle) (answer : ImageData)
| call_arc (x y radius startAngle endAngle : number) (anticlockwise : option bool)
| call_arcTo (x1 y1 x2 y2 radius : number)
| call_beginFill (color : Value)
| call_beginLinearGradientFill (colors ratios : list Value) (x0 y0 x1 y1 : number)
| call_beginLinearGradientStroke (colors ratios : list Value) (x0 y0 x1 y1 : number)
| call_beginRadialGradientStroke (colors ratios : list Value) (x0 y0 r0 x1 y1 r1 : number)
| call_beginPath
| call_beginStroke (color : Value)
| call_bezierCurveTo (cp1x cp1y cp2x cp2y x y : number)
| call_circle (x y radius : number)
| call_clearRect (x y width height : number)
| call_clip
| call_closePath
| call_createLinearGradient (x y width height : number)
| call_createRadialGradient (x0 y0 r0 x1 y1 r1 : number)
| call_ellipse (x y w h : number)
| call_fill
| call_fillRect (x y width height : number)
| call_fillStyle (color : Value)
| call_font (font : Value)
| call_globalAlpha (alpha : Value)
| call_globalCompositeOperation (operation : Value)
| call_lineCap (style : Value)
| call_lineDashOffset (offset : Value)
| call_lineJoin (join : Value)
| call_lineWidth (width : Value)
| call_miterLimit (limit : Value)
| call_lineTo (x y : number)
| call_moveTo (x y : number)
| call_quadraticCurveTo (cpx cpy x y : number)
| call_rect (x y width height : number)
| call_restore
| call_rotate (angle : number)
| call_setStrokeStyle (thickness caps joints limit ignoreScale : Value)
| call_save
| call_scale (x y : number)
| call_scrollPathIntoView
| call_stroke
| call_strokeRect (x y width height : number)
| call_strokeStyle (style : Value)
| call_render.

Definition invoke (m : MethodCall) : JS Value :=
  match m with
  | call_add sprite => prototype.add sprite
  | call_addTo sprites => prototype.addTo sprites
  | call_clear => prototype.clear
  | call_refreshBuffer answer => prototype.refreshBuffer answer
  | call_setPixel32 x y r g b a => prototype.setPixel32 x y r g b a
  | call_setPixel x y r g b => prototype.setPixel x y r g b
  | call_getPixel x y => prototype.getPixel x y
  | call_getPixel32 x y => prototype.getPixel32 x y
  | call_getPixels rect answer => prototype.getPixels rect answer
  | call_arc x y r s e acw => prototype.arc x y r s e acw
  | call_arcTo x1 y1 x2 y2 r => prototype.arcTo x1 y1 x2 y2 r
  | call_beginFill c => prototype.beginFill c
  | call_beginLinearGradientFill cs rs x0 y0 x1 y1 =>
      prototype.beginLinearGradientFill cs rs x0 y0 x1 y1
  | call_beginLinearGradientStroke cs rs x0 y0 x1 y1 =>
      prototype.beginLinearGradientStroke cs rs x0 y0 x1 y1
  | call_beginRadialGradientStroke cs rs x0 y0 r0 x1 y1 r1 =>
      prototype.beginRadialGradientStroke cs rs x0 y0 r0 x1 y1 r1
  | call_beginPath => prototype.beginPath
  | call_beginStroke c => prototype.beginStroke c
  | call_bezierCurveTo a b c d x y => prototype.bezierCurveTo a b c d x y
  | call_circle x y r => prototype.circle x y r
  | call_clearRect x y w h => prototype.clearRect x y w h
  | call_clip => prototype.clip
  | call_closePath => prototype.closePath
  | call_createLinearGradient x y w h => prototype.createLinearGradient x y w h
  | call_createRadialGradient x0 y0 r0 x1 y1 r1 =>
      prototype.createRadialGradient x0 y0 r0 x1 y1 r1
  | call_ellipse x y w h => prototype.ellipse x y w h
  | call_fill => prototype.fill
  | call_fillRect x y w h => prototype.fillRect x y w h
  | call_fillStyle c => prototype.fillStyle c
  | call_font f => prototype.font f
  | call_globalAlpha a => prototype.globalAlpha a
  | call_globalCompositeOperation o => prototype.globalCompositeOperation o
  | call_lineCap s => prototype.lineCap s
  | call_lineDashOffset o => prototype.lineDashOffset o
  | call_lineJoin j => prototype.lineJoin j
  | call_lineWidth w => prototype.lineWidth w
  | call_miterLimit l => prototype.miterLimit l
  | call_lineTo x y => prototype.lineTo x y
  | call_moveTo x y => prototype.moveTo x y
  | call_quadraticCurveTo a b x y => prototype.quadraticCurveTo a b x y
  | call_rect x y w h => prototype.rect x y w h
  | call_restore => prototype.restore
  | call_rotate a => prototype.rotate a
  | call_setStrokeStyle t c j l i => prototype.setStrokeStyle t c j l i
  | call_save => prototype.save
  | call_scale x y => prototype.scale x y
  | call_scrollPathIntoView => prototype.scrollPathIntoView
  | call_stroke => prototype.stroke
  | call_strokeRect x y w h => prototype.strokeRect x y w h
  | call_strokeStyle s => prototype.strokeStyle s
  | call_render => prototype.render
  end.

(** A program calls methods one after the other; a call that throws does
    not stop the ones after it here (the caller may catch), its effects up
    to the throw stay. *)
Definition run (calls : list MethodCall) (w : World) : World :=
  foldl (fun w m => after (invoke m w)) w calls.

(** A world holding a freshly constructed surface. *)
Definition fresh (game : Game) (width height : option Z) (uuid : string)
    (snapshot : ImageData) (queue : list BaseTexture) : World :=
  mkWorld (Phaser_BitmapData game width height uuid snapshot) queue [].

(** ** Classifications used by the statements *)

(** The guard written out in [setPixel32], [getPixel] and [getPixel32]. *)
Definition accepted (b : BitmapData) (x y : Z) : bool :=
  (x >=? 0) && (x <=? width b) && (y >=? 0) && (y <=? height b).

(** The index those three methods compute. *)
Definition pixel_index (b : BitmapData) (x y : Z) : Z := y * width b + x.

(** Requests of the drawing context that change pixels of the canvas:
    the painting operations and the import of raw pixels.  Path
    construction, clipping, transforms, the state stack, property
    assignments, gradient construction and pixel export do not. *)
Definition paints (c : Call) : bool :=
  match c with
  | ctx_clearRect _ _ _ _ | ctx_fill | ctx_fillRect _ _ _ _
  | ctx_stroke | ctx_strokeRect _ _ _ _ | ctx_putImageData _ _ _ => true
  | _ => false
  end.

(** The requests a method call adds to the context. *)
Definition sent (m : MethodCall) (w : World) : list Call :=
  drop (length (context (self w))) (context (self (after (invoke m w)))).

(** The method calls whose body executes [this._dirty = true]. *)
Definition marks (b : BitmapData) (m : MethodCall) : bool :=
  match m with
  | call_clear
  | call_arc _ _ _ _ _ _ | call_arcTo _ _ _ _ _ | call_bezierCurveTo _ _ _ _ _ _
  | call_circle _ _ _ | call_clearRect _ _ _ _ | call_clip | call_closePath
  | call_ellipse _ _ _ _ | call_fill | call_fillRect _ _ _ _ | call_lineTo _ _
  | call_quadraticCurveTo _ _ _ _ | call_rect _ _ _ _ | call_restore
  | call_rotate _ | call_save | call_scale _ _ | call_scrollPathIntoView
  | call_stroke | call_strokeRect _ _ _ _ => true
  | call_setPixel32 x y _ _ _ _ | call_setPixel x y _ _ _ => accepted b x y
  | _ => false
  end.

Definition is_render (m : MethodCall) : bool :=
  match m with call_render => true | _ => false end.

(** Whether a history leaves the flag set: the last [render], if any, is
    followed by a marking call; before any [render] the initial value
    counts too. *)
Fixpoint marked_since_render (b : BitmapData) (d : bool) (calls : list MethodCall) : bool :=
  match calls with
  | [] => d
  | m :: rest =>
      marked_since_render b (if is_render m then false else d || marks b m) rest
  end.

(** The methods that end in [return this]. *)
Definition returns_this (m : MethodCall) : bool :=
  match m with
  | call_add _ | call_addTo _ | call_clear | call_refreshBuffer _
  | call_setPixel32 _ _ _ _ _ _ | call_setPixel _ _ _ _ _
  | call_getPixel _ _ | call_getPixel32 _ _ | call_getPixels _ _
  | call_createLinearGradient _ _ _ _ | call_createRadialGradient _ _ _ _ _ _
  | call_render => false
  | _ => true
  end.

(** The fields set once by the constructor. *)
Definition fixed_part (b : BitmapData) :=
  (game b, name b, width b, height b, canvas b, data32 b,
   baseTexture b, texture b, textureFrame b, type b).

(** The requests each method forwards, in order. *)
Definition requests (b : BitmapData) (m : MethodCall) : list Call :=
  match m with
  | call_add _ | call_addTo _ | call_getPixel _ _ | call_getPixel32 _ _
  | call_render => []
  | call_clear => [ctx_clearRect (Int 0) (Int 0) (Int (width b)) (Int (height b))]
  | call_refreshBuffer _ =>
      [ctx_getImageData (Int 0) (Int 0) (Int (width b)) (Int (height b))]
  | call_setPixel32 x y r g bl a =>
      if accepted b x y
      then [ctx_putImageData
              (imageData (pixels_store (pixel_index b x y) (pack r g bl a) b))
              (Int 0) (Int 0)]
      else []
  | call_setPixel x y r g bl =>
      if accepted b x y
      then [ctx_putImageData
              (imageData (pixels_store (pixel_index b x y) (pack r g bl 255) b))
              (Int 0) (Int 0)]
      else []
  | call_getPixels r _ =>
      [ctx_getImageData (rect_x r) (rect_y r) (rect_width r) (rect_height r)]
  | call_arc x y r s e acw => [ctx_arc x y r s e (default false acw)]
  | call_arcTo x1 y1 x2 y2 r => [ctx_arcTo x1 y1 x2 y2 r]
  | call_beginFill c | call_fillStyle c => [ctx_assign "fillStyle" c]
  | call_beginStroke c | call_strokeStyle c => [ctx_assign "strokeStyle" c]
  | call_beginLinearGradientFill cs rs x0 y0 x1 y1 =>
      [ctx_createLinearGradient x0 y0 x1 y1;
       ctx_assign "fillStyle"
         (prototype.addColorStops cs rs (gradient (Linear x0 y0 x1 y1) []))]
  | call_beginLinearGradientStroke cs rs x0 y0 x1 y1 =>
      [ctx_createLinearGradient x0 y0 x1 y1;
       ctx_assign "strokeStyle"
         (prototype.addColorStops cs rs (gradient (Linear x0 y0 x1 y1) []))]
  | call_beginRadialGradientStroke cs rs x0 y0 r0 x1 y1 r1 =>
      [ctx_createRadialGradient x0 y0 r0 x1 y1 r1;
       ctx_assign "strokeStyle"
         (prototype.addColorStops cs rs (gradient (Radial x0 y0 r0 x1 y1 r1) []))]
  | call_beginPath => [ctx_beginPath]
  | call_bezierCurveTo a b c d x y => [ctx_bezierCurveTo a b c d x y]
  | call_circle x y r => [ctx_arc x y r (Int 0) (Times PI (Int 2)) false]
  | call_clearRect x y w h => [ctx_clearRect x y w h]
  | call_clip => [ctx_clip]
  | call_closePath => [ctx_closePath]
  | call_createLinearGradient x y w h => [ctx_createLinearGradient x y w h]
  | call_createRadialGradient x0 y0 r0 x1 y1 r1 =>
      [ctx_createRadialGradient x0 y0 r0 x1 y1 r1]
  | call_ellipse x y w h =>
      let k := Dec "0.5522848" in
      let ox := Times (Over w (Int 2)) k in
      let oy := Times (Over h (Int 2)) k in
      let xe := Plus x w in
      let ye := Plus y h in
      let xm := Plus x (Over w (Int 2)) in
      let ym := Plus y (Over h (Int 2)) in
      [ctx_moveTo x ym;
       ctx_bezierCurveTo x (Minus ym oy) (Minus xm ox) y xm y;
       ctx_bezierCurveTo (Plus xm ox) y xe (Minus ym oy) xe ym;
       ctx_bezierCurveTo xe (Plus ym oy) (Plus xm ox) ye xm ye;
       ctx_bezierCurveTo (Minus xm ox) ye x (Plus ym oy) x ym]
  | call_fill => [ctx_fill]
  | call_fillRect x y w h => [ctx_fillRect x y w h]
  | call_font f => [ctx_assign "font" f]
  | call_globalAlpha a => [ctx_assign "globalAlpha" a]
  | call_globalCompositeOperation o => [ctx_assign "globalCompositeOperation" o]
  | call_lineCap v => [ctx_assign "lineCap" v]
  | call_lineDashOffset v => [ctx_assign "lineDashOffset" v]
  | call_lineJoin v => [ctx_assign "lineJoin" v]
  | call_lineWidth v => [ctx_assign "lineWidth" v]
  | call_miterLimit v => [ctx_assign "miterLimit" v]
  | call_lineTo x y => [ctx_lineTo x y]
  | call_moveTo x y => [ctx_moveTo x y]
  | call_quadraticCurveTo a b x y => [ctx_quadraticCurveTo a b x y]
  | call_rect x y w h => [ctx_rect x y w h]
  | call_restore => [ctx_restore]
  | call_rotate a => [ctx_rotate a]
  | call_setStrokeStyle t c j l _ =>
      [ctx_assign "lineWidth" (match t with undefined => num (Int 1) | v => v end);
       ctx_assign "lineCap" (match c with undefined => str "butt" | v => v end);
       ctx_assign "lineJoin" (match j with undefined => str "miter" | v => v end);
       ctx_assign "miterLimit" (match l with undefined => num (Int 10) | v => v end)]
  | call_save => [ctx_save]
  | call_scale x y => [ctx_scale x y]
  | call_scrollPathIntoView => [ctx_scrollPathIntoView]
  | call_stroke => [ctx_stroke]
  | call_strokeRect x y w h => [ctx_strokeRect x y w h]
  end.

(** ** Concrete surfaces used to exercise the statements *)

Definition blank (n : nat) : ImageData := mkImageData (replicate n 0) true.

(** [new Phaser.BitmapData(game, 4, 4)] under WebGL, nothing queued. *)
Definition sample : World :=
  fresh (mkGame WEBGL) (Some 4) (Some 4) "0000" (blank 16) [].

(** The same surface in a game that renders to a canvas. *)
Definition sample_canvas : World :=
  fresh (mkGame CANVAS) (Some 4) (Some 4) "0000" (blank 16) [].

(** The surface after [refreshBuffer()], with [pixels] an [Int32Array]. *)
Definition sample_refreshed : World :=
  after (prototype.refreshBuffer (blank 16) sample).

(** ** Histories *)

Definition is_refreshBuffer (m : MethodCall) : bool :=
  match m with call_refreshBuffer _ => true | _ => false end.

(** How many [render] calls of a history find the flag set, starting from
    flag [d]. *)
Fixpoint uploads (b : BitmapData) (d : bool) (calls : list MethodCall) : nat :=
  match calls with
  | [] => 0
  | m :: rest =>
      if is_render m
      then ((if d then 1 else 0) + uploads b false rest)%nat
      else uploads b (d || marks b m) rest
  end.

(** [typeof v === 'undefined'] *)
Definition is_undefined (v : Value) : bool :=
  match v with undefined => true | _ => false end.

(** The calls that assign [this.imageData] or store through [this.pixels]. *)
Definition touches_cache (m : MethodCall) : bool :=
  match m with
  | call_refreshBuffer _ | call_setPixel32 _ _ _ _ _ _ | call_setPixel _ _ _ _ _ => true
  | _ => false
  end.

(** The image carried by a [putImageData] request is [d]. *)
Definition puts_only (d : ImageData) (c : Call) : Prop :=
  match c with
  | ctx_putImageData d' _ _ => d' = d
  | _ => True
  end.

(** The state [refreshBuffer] leaves on a platform with typed arrays:
    [pixels] is an [Int32Array] over an image of [width * height] pixels. *)
Definition int32_surface (b : BitmapData) : Prop :=
  pixels b = Int32View /\
  length (data (imageData b)) = Z.to_nat (width b * height b).

(** ** The EaselJS Tiny API aliases *)

(** The keys of the object literal assigned to
    [Phaser.BitmapData.prototype], in source order. *)
Definition method_names : list string :=
  ["add"; "addTo"; "clear"; "refreshBuffer"; "setPixel32"; "setPixel";
   "getPixel"; "getPixel32"; "getPixels"; "arc"; "arcTo"; "beginFill";
   "beginLinearGradientFill"; "beginLinearGradientStroke";
   "beginRadialGradientStroke"; "beginPath"; "beginStroke"; "bezierCurveTo";
   "circle"; "clearRect"; "clip"; "closePath"; "createLinearGradient";
   "createRadialGradient"; "ellipse"; "fill"; "fillRect"; "fillStyle"; "font";
   "globalAlpha"; "globalCompositeOperation"; "lineCap"; "lineDashOffset";
   "lineJoin"; "lineWidth"; "miterLimit"; "lineTo"; "moveTo";
   "quadraticCurveTo"; "rect"; "restore"; "rotate"; "setStrokeStyle"; "save";
   "scale"; "scrollPathIntoView"; "stroke"; "strokeRect"; "strokeStyle";
   "render"].

(** The assignments [prototype.alias = prototype.target] that follow the
    literal, in source order (the commented-out ones left out). *)
Definition alias_assignments : list (string * string) :=
  [("mt", "moveTo"); ("lt", "lineTo"); ("at", "arcTo"); ("bt", "bezierCurveTo");
   ("qt", "quadraticCurveTo"); ("a", "arc"); ("r", "rect"); ("cp", "closePath");
   ("c", "clear"); ("f", "beginFill"); ("lf", "beginLinearGradientFill");
   ("rf", "beginRadialGradientFill"); ("ef", "endFill"); ("ss", "setStrokeStyle");
   ("s", "beginStroke"); ("ls", "beginLinearGradientStroke");
   ("rs", "beginRadialGradientStroke"); ("dr", "rect"); ("dc", "circle");
   ("de", "ellipse")].

(** A property of the prototype holds a function of the literal, named by
    its key there, or [undefined] ([None]). *)
Definition prototype_literal : gmap string (option string) :=
  list_to_map ((fun n => (n, Some n)) <$> method_names).

(** [obj.alias = obj.target]: reading an absent property gives
    [undefined], and the assignment stores that. *)
Definition assign_alias (obj : gmap string (option string))
    (a : string * string) : gmap string (option string) :=
  <[a.1 := mjoin (obj !! a.2)]> obj.

(** The prototype once the file has run. *)
Definition prototype_object : gmap string (option string) :=
  foldl assign_alias prototype_literal alias_assignments.

(** * Verification *)

(** ** Proof tools *)

Ltac js_unfold :=
  unfold prototype.setPixel, prototype.beginFill, prototype.beginStroke,
    prototype.beginLinearGradientFill, prototype.beginLinearGradientStroke,
    prototype.beginRadialGradientStroke, prototype.circle, prototype.ellipse,
    prototype.setStrokeStyle;
  unfold prototype.add, prototype.addTo, prototype.clear, prototype.refreshBuffer,
    prototype.setPixel32, prototype.getPixel, prototype.getPixel32,
    prototype.getPixels, prototype.arc, prototype.arcTo, prototype.beginPath,
    prototype.bezierCurveTo, prototype.clearRect, prototype.clip,
    prototype.closePath, prototype.createLinearGradient,
    prototype.createRadialGradient, prototype.moveTo,
    prototype.fill, prototype.fillRect, prototype.fillStyle,
    prototype.font, prototype.globalAlpha, prototype.globalCompositeOperation,
    prototype.lineCap, prototype.lineDashOffset, prototype.lineJoin, prototype.lineWidth,
    prototype.miterLimit, prototype.lineTo, prototype.quadraticCurveTo,
    prototype.rect, prototype.restore, prototype.rotate,
    prototype.save, prototype.scale, prototype.scrollPathIntoView, prototype.stroke,
    prototype.strokeRect, prototype.strokeStyle, prototype.render,
    data32_load, send, assign_dirty, push_texture, sprite_loadTexture,
    update_this, read_this, after, completion,
    mbind, mret, mthrow, JS_bind, JS_ret, JS_throw.

Ltac js_step := js_unfold; cbn [fst snd self with_self].

(** ** The consumer loop of [addTo] *)

Lemma addTo_from_spec (sprites : list Sprite) (w : World) :
  prototype.addTo_from sprites w =
    (Normal tt,
     mkWorld (self w) (texturesToUpdate w)
       (loadTexture w ++ map sprite_id (filter (fun s => sprite_texture s = true) sprites))).
Proof.
  revert w. induction sprites as [|s rest IH]; intros w.
  - cbn. rewrite app_nil_r. by destruct w.
  - cbn [prototype.addTo_from]. unfold mbind, JS_bind.
    rewrite filter_cons. destruct (sprite_texture s) eqn:E.
    + unfold sprite_loadTexture. rewrite IH, decide_True by done.
      cbn [self texturesToUpdate loadTexture map]. by rewrite <- app_assoc.
    + unfold mret, JS_ret. rewrite IH, decide_False by done. done.
Qed.

(** ** The dirty flag, call by call *)

Lemma pixels_store_dirty idx v b : _dirty (pixels_store idx v b) = _dirty b.
Proof. unfold pixels_store. by destruct (pixels b). Qed.

Lemma pixels_store_context idx v b : context (pixels_store idx v b) = context b.
Proof. unfold pixels_store. by destruct (pixels b). Qed.

Lemma pixels_store_width idx v b : width (pixels_store idx v b) = width b.
Proof. unfold pixels_store. by destruct (pixels b). Qed.

Lemma pixels_store_height idx v b : height (pixels_store idx v b) = height b.
Proof. unfold pixels_store. by destruct (pixels b). Qed.

Lemma pixels_store_data32 idx v b : data32 (pixels_store idx v b) = data32 b.
Proof. unfold pixels_store. by destruct (pixels b). Qed.

Lemma dirty_invoke (m : MethodCall) (w : World) :
  _dirty (self (after (invoke m w))) =
    if is_render m then false else _dirty (self w) || marks (self w) m.
Proof.
  destruct m; cbn [invoke is_render marks];
    try (js_step; cbn; by rewrite ?orb_true_r, ?orb_false_r).
  - unfold prototype.addTo, mbind, JS_bind. rewrite addTo_from_spec.
    cbn. by rewrite orb_false_r.
  - js_step. fold (accepted (self w) x y). destruct (accepted (self w) x y); cbn.
    + by rewrite orb_true_r.
    + by rewrite orb_false_r.
  - js_step. fold (accepted (self w) x y). destruct (accepted (self w) x y); cbn.
    + by rewrite orb_true_r.
    + by rewrite orb_false_r.
  - js_step. fold (accepted (self w) x y).
    destruct (accepted (self w) x y); [destruct (data32 (self w))|]; cbn;
      by rewrite orb_false_r.
  - js_step. fold (accepted (self w) x y).
    destruct (accepted (self w) x y); [destruct (data32 (self w))|]; cbn;
      by rewrite orb_false_r.
  - js_step. destruct (_dirty (self w)) eqn:E; [|done].
    by destruct (RenderType_eqb _ _).
Qed.

(** ** What no method assigns *)

Lemma fixed_pixels_store idx v b : fixed_part (pixels_store idx v b) = fixed_part b.
Proof. unfold pixels_store. by destruct (pixels b). Qed.

Lemma fixed_invoke (m : MethodCall) (w : World) :
  fixed_part (self (after (invoke m w))) = fixed_part (self w).
Proof.
  destruct m; cbn [invoke]; try (js_step; by cbn).
  - unfold prototype.addTo, mbind, JS_bind. by rewrite addTo_from_spec.
  - js_step. destruct (_ && _); [|done]. cbn. apply fixed_pixels_store.
  - js_step. destruct (_ && _); [|done]. cbn. apply fixed_pixels_store.
  - js_step. destruct (_ && _); [destruct (data32 (self w))|]; done.
  - js_step. destruct (_ && _); [destruct (data32 (self w))|]; done.
  - js_step. destruct (_dirty (self w)); [|done].
    by destruct (RenderType_eqb _ _).
Qed.

Lemma fixed_run (calls : list MethodCall) (w : World) :
  fixed_part (self (run calls w)) = fixed_part (self w).
Proof.
  revert w. induction calls as [|m rest IH]; intros w; [reflexivity|].
  cbn [run foldl]. fold (run rest (after (invoke m w))).
  by rewrite IH, fixed_invoke.
Qed.

Lemma marks_fixed (b b' : BitmapData) (m : MethodCall) :
  fixed_part b' = fixed_part b -> marks b' m = marks b m.
Proof.
  unfold fixed_part. intros H. injection H as _ _ Hw Hh _ _ _ _ _ _.
  destruct m; cbn [marks]; try done; unfold accepted; by rewrite Hw, Hh.
Qed.

Lemma data32_run (calls : list MethodCall) (w : World) :
  data32 (self (run calls w)) = data32 (self w).
Proof.
  pose proof (fixed_run calls w) as H. unfold fixed_part in H.
  by injection H as _ _ _ _ _ H _ _ _ _.
Qed.

(** ** The dirty flag along a history *)

Lemma dirty_run_from (b0 : BitmapData) (calls : list MethodCall) (w : World) :
  fixed_part (self w) = fixed_part b0 ->
  _dirty (self (run calls w)) =
    marked_since_render b0 (_dirty (self w)) calls.
Proof.
  revert w.
  induction calls as [|m rest IH]; intros w Hfix; [reflexivity|].
  cbn [run foldl marked_since_render]. fold (run rest (after (invoke m w))).
  rewrite IH by (by rewrite fixed_invoke).
  by rewrite dirty_invoke, (marks_fixed b0 (self w) m Hfix).
Qed.

Lemma dirty_run (calls : list MethodCall) (w : World) :
  _dirty (self (run calls w)) =
    marked_since_render (self w) (_dirty (self w)) calls.
Proof. by apply dirty_run_from. Qed.

(** ** Requests reaching the context *)

Lemma context_invoke (m : MethodCall) (w : World) :
  context (self (after (invoke m w))) = context (self w) ++ requests (self w) m.
Proof.
  destruct m; cbn [invoke requests];
    try (js_step; cbn; rewrite <- ?app_assoc; try reflexivity; by rewrite app_nil_r).
  - unfold prototype.addTo, mbind, JS_bind. rewrite addTo_from_spec.
    cbn. by rewrite app_nil_r.
  - js_step. fold (accepted (self w) x y). unfold pixel_index.
    destruct (accepted (self w) x y); cbn; [|by rewrite app_nil_r].
    by rewrite pixels_store_context.
  - js_step. fold (accepted (self w) x y). unfold pixel_index.
    destruct (accepted (self w) x y); cbn; [|by rewrite app_nil_r].
    by rewrite pixels_store_context.
  - js_step. fold (accepted (self w) x y).
    destruct (accepted (self w) x y); [destruct (data32 (self w))|]; cbn;
      by rewrite app_nil_r.
  - js_step. fold (accepted (self w) x y).
    destruct (accepted (self w) x y); [destruct (data32 (self w))|]; cbn;
      by rewrite app_nil_r.
  - js_step. destruct (_dirty (self w)); [|by rewrite app_nil_r].
    destruct (RenderType_eqb _ _); cbn; by rewrite app_nil_r.
Qed.

Lemma sent_requests (m : MethodCall) (w : World) :
  sent m w = requests (self w) m.
Proof. unfold sent. by rewrite context_invoke, drop_app_length. Qed.

Lemma painting_is_marked (m : MethodCall) (w : World) :
  existsb paints (sent m w) = true -> marks (self w) m = true.
Proof.
  rewrite sent_requests.
  destruct m; cbn [marks requests existsb paints orb]; try done.
  - by destruct (accepted (self w) x y).
  - by destruct (accepted (self w) x y).
Qed.

(** ** The synchronisation step *)

Lemma render_clean (w : World) :
  _dirty (self w) = false -> prototype.render w = (Normal undefined, w).
Proof. intros H. js_step. by rewrite H. Qed.

Lemma render_dirty (w : World) :
  _dirty (self w) = true ->
  prototype.render w =
    (Normal undefined,
     mkWorld (with_dirty false (self w))
       (if RenderType_eqb (renderType (game (self w))) WEBGL
        then texturesToUpdate w ++ [baseTexture (self w)]
        else texturesToUpdate w)
       (loadTexture w)).
Proof.
  intros H. js_step. rewrite H.
  by destruct (RenderType_eqb _ _).
Qed.

(** C3 (as amended): [render()] returns nothing and changes nothing when
    the flag is clear.  When the flag is set it clears it, and it pushes
    [baseTexture] on [PIXI.texturesToUpdate] exactly once if
    [game.renderType == Phaser.WEBGL] and not at all in any other renderer
    mode; nothing else changes.  A second call right after the first
    changes nothing, so two calls push at most one entry. *)
Theorem render_contract (w : World) :
  completion (prototype.render w) = Normal undefined /\
  (_dirty (self w) = false -> after (prototype.render w) = w) /\
  (_dirty (self w) = true ->
     after (prototype.render w) =
       mkWorld (with_dirty false (self w))
         (if RenderType_eqb (renderType (game (self w))) WEBGL
          then texturesToUpdate w ++ [baseTexture (self w)]
          else texturesToUpdate w)
         (loadTexture w)) /\
  _dirty (self (after (prototype.render w))) = false /\
  after (prototype.render (after (prototype.render w))) = after (prototype.render w) /\
  (length (texturesToUpdate (after (prototype.render (after (prototype.render w)))))
     <= S (length (texturesToUpdate w)))%nat.
Proof.
  destruct (_dirty (self w)) eqn:E.
  - pose proof (render_dirty w E) as H. unfold completion, after. rewrite H.
    cbn [fst snd]. rewrite render_clean by done. cbn [fst snd self with_dirty _dirty texturesToUpdate].
    repeat split; try done.
    destruct (RenderType_eqb _ _); rewrite ?length_app; cbn; lia.
  - pose proof (render_clean w E) as H. unfold completion, after. rewrite H.
    cbn [fst snd]. rewrite H. cbn [fst snd].
    repeat split; try done. lia.
Qed.

Lemma render_contract_witness :
  _dirty (self (after (prototype.fill sample))) = true /\
  after (prototype.render (after (prototype.fill sample))) =
    mkWorld (with_dirty false (self (after (prototype.fill sample))))
      [baseTexture (self sample)] [] /\
  _dirty (self sample) = false /\
  after (prototype.render sample) = sample.
Proof.
  split; [reflexivity|]. split.
  - apply (proj1 (proj2 (proj2 (render_contract (after (prototype.fill sample)))))).
    reflexivity.
  - split; [reflexivity|].
    apply (proj1 (proj2 (render_contract sample))). reflexivity.
Defined.

(** C3 (as stated) fails: on a dirty surface of a game that renders to a
    canvas, [render()] clears the flag without notifying the upload queue. *)
Lemma render_canvas_mode_notifies_nothing :
  let w := after (prototype.fill sample_canvas) in
  _dirty (self w) = true /\
  texturesToUpdate (after (prototype.render w)) = texturesToUpdate w /\
  _dirty (self (after (prototype.render w))) = false.
Proof. by vm_compute. Qed.

(** ** Dirty tracking *)

(** C2 (as amended): the flag is false after construction.  A method call
    other than [render] leaves it set if it was set, and sets it exactly
    when its body assigns [this._dirty = true]: [clear], an accepted
    [setPixel32] or [setPixel], the painting calls, and also the path,
    clip, transform and state-stack calls ([arc], [lineTo], [save], ...),
    which change no pixel.  Every call that sends a painting request to
    the context sets it.  [render] clears it and nothing else does, so
    after any history the flag tells whether a marking call followed the
    last [render]. *)
Theorem dirty_flag_follows_marking_calls :
  (forall game width height uuid snapshot,
     _dirty (Phaser_BitmapData game width height uuid snapshot) = false) /\
  (forall m w,
     _dirty (self (after (invoke m w))) =
       if is_render m then false else _dirty (self w) || marks (self w) m) /\
  (forall m w,
     existsb paints (sent m w) = true ->
     _dirty (self (after (invoke m w))) = true) /\
  (forall m w,
     _dirty (self w) = true -> _dirty (self (after (invoke m w))) = false ->
     m = call_render) /\
  (forall calls w,
     _dirty (self (run calls w)) =
       marked_since_render (self w) (_dirty (self w)) calls).
Proof.
  split; [done|]. split; [apply dirty_invoke|]. split; [|split].
  - intros m w H. apply painting_is_marked in H as Hm.
    rewrite dirty_invoke, Hm, orb_true_r.
    by destruct m.
  - intros m w Hd. rewrite dirty_invoke, Hd. by destruct m.
  - apply dirty_run.
Qed.

Lemma dirty_flag_follows_marking_calls_witness :
  (existsb paints (sent call_fill sample) = true /\
   _dirty (self (after (invoke call_fill sample))) = true) /\
  (_dirty (self (after (invoke call_fill sample))) = true /\
   _dirty (self (after (invoke call_render (after (invoke call_fill sample))))) = false /\
   call_render = call_render).
Proof.
  split.
  - split; [reflexivity|].
    apply (proj1 (proj2 (proj2 dirty_flag_follows_marking_calls))). reflexivity.
  - split; [reflexivity|]. split; [reflexivity|].
    apply (proj1 (proj2 (proj2 (proj2 dirty_flag_follows_marking_calls)))
             call_render (after (invoke call_fill sample))); reflexivity.
Defined.

(** C2 (as stated) fails: on a fresh surface [save()] stores nothing in
    the pixel buffer and sends the context a single request, [save], which
    paints nothing; the flag goes from false to true all the same. *)
Lemma save_sets_dirty_without_touching_pixels :
  let w := sample in
  let w' := after (prototype.save w) in
  _dirty (self w) = false /\
  _dirty (self w') = true /\
  pixels (self w') = pixels (self w) /\
  imageData (self w') = imageData (self w) /\
  context (self w') = context (self w) ++ [ctx_save] /\
  existsb paints [ctx_save] = false.
Proof. by vm_compute. Qed.

(** ** Bounds of the pixel accessors *)

Lemma accepted_spec (b : BitmapData) (x y : Z) :
  accepted b x y = true <-> 0 <= x <= width b /\ 0 <= y <= height b.
Proof.
  unfold accepted. rewrite !andb_true_iff, !Z.geb_le, !Z.leb_le. lia.
Qed.

Lemma grid_accepted (b : BitmapData) (x y : Z) :
  0 <= x < width b -> 0 <= y < height b -> accepted b x y = true.
Proof. intros Hx Hy. apply accepted_spec. lia. Qed.

Lemma accepted_false (b : BitmapData) (x y : Z) :
  accepted b x y = false <-> x < 0 \/ width b < x \/ y < 0 \/ height b < y.
Proof.
  rewrite <- not_true_iff_false, accepted_spec. lia.
Qed.

(** C4: at coordinates the guard of [setPixel32] rejects (a negative [x]
    or [y], [x] beyond [width], [y] beyond [height]) the call completes
    normally with no result and the whole state, pixel buffer and dirty
    flag included, is what it was. *)
Theorem setPixel32_rejected_is_noop (w : World) (x y red green blue alpha : Z) :
  x < 0 \/ width (self w) < x \/ y < 0 \/ height (self w) < y ->
  prototype.setPixel32 x y red green blue alpha w = (Normal undefined, w).
Proof.
  intros H. apply accepted_false in H. js_step.
  fold (accepted (self w) x y). by rewrite H.
Qed.

Lemma setPixel32_rejected_is_noop_witness :
  (5 < 0 \/ width (self sample) < 5 \/ 0 < 0 \/ height (self sample) < 0) /\
  prototype.setPixel32 5 0 1 2 3 4 sample = (Normal undefined, sample).
Proof.
  split; [right; left; reflexivity|].
  apply (setPixel32_rejected_is_noop sample 5 0 1 2 3 4).
  right; left; reflexivity.
Defined.

Lemma setPixel32_accepted_marks (w : World) (x y red green blue alpha : Z) :
  accepted (self w) x y = true ->
  _dirty (self (after (prototype.setPixel32 x y red green blue alpha w))) = true.
Proof.
  intros H.
  change (prototype.setPixel32 x y red green blue alpha)
    with (invoke (call_setPixel32 x y red green blue alpha)).
  rewrite dirty_invoke. cbn [is_render marks]. by rewrite H, orb_true_r.
Qed.

(** C5: the bounds check of [setPixel32], [getPixel] and [getPixel32] has
    inclusive upper bounds.  [setPixel32] runs its store, at index
    [y * width + x], and its [putImageData] exactly when [0 <= x <= width]
    and [0 <= y <= height], and does nothing otherwise; [getPixel] and
    [getPixel32] index [this.data32] at [y * width + x] exactly then (a
    [TypeError] while [data32] is unassigned) and return [undefined]
    otherwise.  So all three act at [x = width], [y = height], where the
    index [y * width + x] is at least [width * height], outside a buffer
    of [width * height] entries.  The coordinates at which they act with
    such an index are exactly the row [y = height] and the point
    [(width, height - 1)].  Dimensions are positive and small enough for
    the index to be exact. *)
Theorem inclusive_bounds_reach_past_buffer (w : World) :
  0 < width (self w) -> 0 < height (self w) ->
  (height (self w) + 1) * width (self w) < 2 ^ 53 ->
  let inside x y := 0 <= x <= width (self w) /\ 0 <= y <= height (self w) in
  let past x y := width (self w) * height (self w) <= y * width (self w) + x in
  (forall x y r g b a,
     (inside x y ->
      self (after (prototype.setPixel32 x y r g b a w)) =
        let b' := pixels_store (y * width (self w) + x) (pack r g b a) (self w) in
        with_dirty true
          (with_context (context b' ++ [ctx_putImageData (imageData b') (Int 0) (Int 0)])
             b')) /\
     (~ inside x y -> prototype.setPixel32 x y r g b a w = (Normal undefined, w)) /\
     (sent (call_setPixel32 x y r g b a) w <> [] <-> inside x y)) /\
  (forall x y,
     (inside x y ->
      prototype.getPixel x y w = data32_load (y * width (self w) + x) w /\
      prototype.getPixel32 x y w = data32_load (y * width (self w) + x) w) /\
     (~ inside x y ->
      prototype.getPixel x y w = (Normal undefined, w) /\
      prototype.getPixel32 x y w = (Normal undefined, w)) /\
     (data32 (self w) = None ->
      (completion (prototype.getPixel x y w) = Throw TypeError <-> inside x y) /\
      (completion (prototype.getPixel32 x y w) = Throw TypeError <-> inside x y))) /\
  (exists x y, x = width (self w) /\ 0 <= y /\ inside x y /\ past x y) /\
  (forall x y,
     inside x y ->
     (past x y <-> y = height (self w) \/ (y = height (self w) - 1 /\ x = width (self w)))).
Proof.
  intros Hw Hh Hbound. cbv zeta.
  split; [|split; [|split]].
  - intros x y r g b a. split; [|split].
    + intros Hin. apply accepted_spec in Hin. js_step.
      fold (accepted (self w) x y). by rewrite Hin.
    + intros Hout. js_step. fold (accepted (self w) x y).
      destruct (accepted (self w) x y) eqn:E; [|done].
      by apply accepted_spec in E.
    + rewrite sent_requests. cbn [requests]. rewrite <- accepted_spec.
      by destruct (accepted (self w) x y).
  - intros x y. rewrite <- accepted_spec. split; [|split].
    + intros Hin. js_step. fold (accepted (self w) x y). by rewrite Hin.
    + intros Hout. apply not_true_is_false in Hout.
      js_step. fold (accepted (self w) x y). by rewrite Hout.
    + intros Hd. js_step. fold (accepted (self w) x y).
      destruct (accepted (self w) x y); [|done]. by rewrite Hd.
  - exists (width (self w)), (height (self w)). repeat split; lia || nia.
  - intros x y Hin. nia.
Qed.

Lemma inclusive_bounds_reach_past_buffer_witness :
  (0 < width (self sample) /\ 0 < height (self sample) /\
   (height (self sample) + 1) * width (self sample) < 2 ^ 53 /\
   (0 <= 4 <= width (self sample) /\ 0 <= 4 <= height (self sample)) /\
   data32 (self sample) = None) /\
  sent (call_setPixel32 4 4 10 20 30 200) sample <> [] /\
  completion (prototype.getPixel 4 4 sample) = Throw TypeError /\
  completion (prototype.getPixel32 4 4 sample) = Throw TypeError /\
  (width (self sample) * height (self sample) <= 4 * width (self sample) + 4 <->
   4 = height (self sample) \/ (4 = height (self sample) - 1 /\ 4 = width (self sample))).
Proof.
  assert (H1 : 0 < width (self sample)) by reflexivity.
  assert (H2 : 0 < height (self sample)) by reflexivity.
  assert (H3 : (height (self sample) + 1) * width (self sample) < 2 ^ 53) by reflexivity.
  assert (H4 : 0 <= 4 <= width (self sample) /\ 0 <= 4 <= height (self sample))
    by (by vm_compute).
  assert (H5 : data32 (self sample) = None) by reflexivity.
  split; [done|].
  destruct (inclusive_bounds_reach_past_buffer sample H1 H2 H3)
    as (Hset & Hget & _ & Hpast).
  split; [|split; [|split]].
  - apply (proj2 (proj2 (proj2 (Hset 4 4 10 20 30 200)))). exact H4.
  - apply (proj2 (proj1 (proj2 (proj2 (Hget 4 4)) H5))). exact H4.
  - apply (proj2 (proj2 (proj2 (proj2 (Hget 4 4)) H5))). exact H4.
  - apply (Hpast 4 4). exact H4.
Defined.

(** ** Return values *)

Lemma completion_invoke (m : MethodCall) (w : World) :
  returns_this m = true -> completion (invoke m w) = Normal this.
Proof. destruct m; cbn [returns_this invoke]; try done; intros _; by js_step. Qed.

(** C6 (as amended): every method of the drawing facade that marks the
    surface dirty ends in [return this] and so returns the surface it was
    called on; the three mutators of the pixel section, [clear],
    [setPixel32] and [setPixel], have no [return] and yield [undefined]. *)
Theorem marking_calls_return (m : MethodCall) (w : World) :
  marks (self w) m = true ->
  completion (invoke m w) =
    Normal match m with
           | call_clear | call_setPixel32 _ _ _ _ _ _ | call_setPixel _ _ _ _ _ =>
               undefined
           | _ => this
           end.
Proof.
  destruct m; cbn [marks]; try done; intros H; cbn [invoke]; try (by js_step).
  - js_step. fold (accepted (self w) x y). by rewrite H.
  - js_step. fold (accepted (self w) x y). by rewrite H.
Qed.

Lemma marking_calls_return_witness :
  marks (self sample) (call_fillRect (Int 0) (Int 0) (Int 4) (Int 4)) = true /\
  completion (invoke (call_fillRect (Int 0) (Int 0) (Int 4) (Int 4)) sample) = Normal this.
Proof.
  split; [reflexivity|].
  apply (marking_calls_return (call_fillRect (Int 0) (Int 0) (Int 4) (Int 4)) sample).
  reflexivity.
Defined.

(** C6 (as stated) fails: [clear()] repaints the whole canvas and marks the
    surface dirty, and returns [undefined], not the surface. *)
Lemma clear_returns_undefined :
  completion (prototype.clear sample) = Normal undefined /\
  completion (prototype.clear sample) <> Normal this /\
  _dirty (self (after (prototype.clear sample))) = true /\
  sent call_clear sample = [ctx_clearRect (Int 0) (Int 0) (Int 4) (Int 4)].
Proof. by vm_compute. Qed.

(** ** Composite helpers and style setters *)

(** C8: [circle(x, y, r)] is [arc(x, y, r, 0, Math.PI*2, false)]: the same
    result, [this], and the same state afterwards, hence the same dirty
    flag; the context receives the single request
    [arc(x, y, r, 0, Math.PI*2, false)] from either. *)
Theorem circle_is_full_arc (x y radius : number) (w : World) :
  prototype.circle x y radius w =
    prototype.arc x y radius (Int 0) (Times PI (Int 2)) (Some false) w /\
  sent (call_circle x y radius) w =
    [ctx_arc x y radius (Int 0) (Times PI (Int 2)) false] /\
  sent (call_arc x y radius (Int 0) (Times PI (Int 2)) (Some false)) w =
    [ctx_arc x y radius (Int 0) (Times PI (Int 2)) false] /\
  completion (prototype.circle x y radius w) = Normal this /\
  _dirty (self (after (prototype.circle x y radius w))) = true.
Proof.
  split; [by js_step|]. rewrite !sent_requests. by js_step.
Qed.

(** C9: [fillStyle], [lineWidth] and [font] only assign a property of the
    context: the dirty flag, [pixels] and [imageData] are what they were
    before the call, and no painting request is sent. *)
Theorem style_setters_leave_dirty_and_pixels (v : Value) (w : World) :
  let untouched (r : Completion Value * World) :=
    _dirty (self (after r)) = _dirty (self w) /\
    pixels (self (after r)) = pixels (self w) /\
    imageData (self (after r)) = imageData (self w) in
  untouched (prototype.fillStyle v w) /\
  untouched (prototype.lineWidth v w) /\
  untouched (prototype.font v w) /\
  sent (call_fillStyle v) w = [ctx_assign "fillStyle" v] /\
  sent (call_lineWidth v) w = [ctx_assign "lineWidth" v] /\
  sent (call_font v) w = [ctx_assign "font" v].
Proof. cbv zeta. rewrite !sent_requests. by js_step. Qed.

(** ** Construction *)

(** C10: an omitted [width] or [height] becomes 256, a given one is kept;
    the canvas, the [getImageData] request that fetches the buffer and the
    texture frame all use the resulting dimensions. *)
Theorem constructor_defaults (game : Game) (uuid : string) (snapshot : ImageData) :
  let built (wd ht : option Z) (w h : Z) :=
    let b := Phaser_BitmapData game wd ht uuid snapshot in
    width b = w /\ height b = h /\
    canvas b = mkCanvas w h /\
    source (baseTexture b) = mkCanvas w h /\
    context b = [ctx_getImageData (Int 0) (Int 0) (Int w) (Int h)] /\
    imageData b = snapshot /\
    frame_width (textureFrame b) = w /\ frame_height (textureFrame b) = h in
  built None None 256 256 /\
  (forall h, built None (Some h) 256 h) /\
  (forall w, built (Some w) None w 256) /\
  (forall w h, built (Some w) (Some h) w h).
Proof. cbv zeta. by cbn. Qed.

(** ** Arithmetic of the packed pixel *)

Module Int32Facts.
Import Int32.

Lemma ToUint32_range z : 0 <= ToUint32 z < two32.
Proof. unfold ToUint32. apply Z.mod_pos_bound. done. Qed.

Lemma ToUint32_ToInt32 z : ToUint32 (ToInt32 z) = ToUint32 z.
Proof.
  unfold ToInt32, ToUint32. destruct (two31 <=? z mod two32).
  - rewrite Zminus_mod, Z_mod_same_full, Z.sub_0_r. by rewrite !Zmod_mod.
  - by rewrite Zmod_mod.
Qed.

Lemma ToInt32_idem z : ToInt32 (ToInt32 z) = ToInt32 z.
Proof.
  unfold ToInt32 at 1. fold (ToUint32 (ToInt32 z)).
  by rewrite ToUint32_ToInt32.
Qed.

Lemma ToUint32_small z : 0 <= z < two32 -> ToUint32 z = z.
Proof. apply Z.mod_small. Qed.

Lemma ToUint32_land z : ToUint32 z = Z.land z (Z.ones 32).
Proof. unfold ToUint32, two32. by rewrite Z.land_ones. Qed.

Lemma ToUint32_bor a b : ToUint32 (bor a b) = Z.lor (ToUint32 a) (ToUint32 b).
Proof.
  unfold bor. rewrite ToUint32_ToInt32, !ToUint32_land.
  by rewrite Z.land_lor_distr_l, <- !ToUint32_land, !ToUint32_ToInt32, !ToUint32_land.
Qed.

Lemma ToUint32_shl a n :
  0 <= n < 32 -> ToUint32 (shl a n) = ToUint32 (a * 2 ^ n).
Proof.
  intros Hn. unfold shl. rewrite ToUint32_ToInt32.
  assert (Z.land (ToUint32 n) 31 = n) as ->.
  { rewrite ToUint32_small by (unfold two32; lia).
    change 31 with (Z.ones 5). rewrite Z.land_ones by done.
    apply Z.mod_small. lia. }
  rewrite Z.shiftl_mul_pow2 by lia.
  unfold ToUint32. rewrite Zmult_mod. fold (ToUint32 (ToInt32 a)).
  rewrite ToUint32_ToInt32. unfold ToUint32. by rewrite <- Zmult_mod.
Qed.

Lemma lor_high_low h l k :
  0 <= k -> 0 <= l < 2 ^ k -> Z.lor (h * 2 ^ k) l = h * 2 ^ k + l.
Proof.
  intros Hk Hl. rewrite <- Z.add_lor_land.
  assert (Z.land (h * 2 ^ k) l = 0) as ->; [|lia].
  apply Z.bits_inj'. intros n Hn. rewrite Z.land_spec, Z.bits_0.
  destruct (Z.lt_ge_cases n k) as [Hlt|Hge].
  - by rewrite Z.mul_pow2_bits_low.
  - rewrite <- (Z.mod_small l (2 ^ k)) by done.
    rewrite Z.mod_pow2_bits_high by lia. apply andb_false_r.
Qed.

End Int32Facts.

Lemma pack_unsigned (red green blue alpha : Z) :
  0 <= red <= 255 -> 0 <= green <= 255 -> 0 <= blue <= 255 -> 0 <= alpha <= 255 ->
  Int32.ToUint32 (pack red green blue alpha) =
    alpha * 2 ^ 24 + blue * 2 ^ 16 + green * 2 ^ 8 + red.
Proof.
  intros Hr Hg Hb Ha. unfold pack.
  rewrite !Int32Facts.ToUint32_bor, !Int32Facts.ToUint32_shl by lia.
  rewrite !Int32Facts.ToUint32_small by (unfold Int32.two32; lia).
  rewrite (Int32Facts.lor_high_low _ (blue * 2 ^ 16) 24) by lia.
  replace (alpha * 2 ^ 24 + blue * 2 ^ 16) with ((alpha * 2 ^ 8 + blue) * 2 ^ 16) by lia.
  rewrite Int32Facts.lor_high_low by lia.
  replace ((alpha * 2 ^ 8 + blue) * 2 ^ 16 + green * 2 ^ 8)
    with ((alpha * 2 ^ 16 + blue * 2 ^ 8 + green) * 2 ^ 8) by lia.
  rewrite Int32Facts.lor_high_low by lia. lia.
Qed.

Lemma pack_int32 (red green blue alpha : Z) :
  Int32.ToInt32 (pack red green blue alpha) = pack red green blue alpha.
Proof.
  unfold pack. set (hi := Int32.bor (Int32.bor _ _) _).
  unfold Int32.bor. apply Int32Facts.ToInt32_idem.
Qed.

Lemma pack_alpha_byte (red green blue alpha : Z) :
  0 <= red <= 255 -> 0 <= green <= 255 -> 0 <= blue <= 255 -> 0 <= alpha <= 255 ->
  Int32.byte_of 3 (pack red green blue alpha) = alpha.
Proof.
  intros Hr Hg Hb Ha. unfold Int32.byte_of. rewrite pack_unsigned by done.
  rewrite Z.shiftr_div_pow2 by lia. change (8 * 3) with 24.
  replace (alpha * 2 ^ 24 + blue * 2 ^ 16 + green * 2 ^ 8 + red)
    with ((blue * 2 ^ 16 + green * 2 ^ 8 + red) + alpha * 2 ^ 24) by lia.
  rewrite Z.div_add by lia. rewrite Z.div_small by lia.
  change 255 with (Z.ones 8). rewrite Z.land_ones by lia.
  apply Z.mod_small. lia.
Qed.

(** ** The store of [setPixel32] and the load of [getPixel32] *)

Lemma setPixel32_accepted (w : World) (x y red green blue alpha : Z) :
  accepted (self w) x y = true ->
  self (after (prototype.setPixel32 x y red green blue alpha w)) =
    let b := pixels_store (pixel_index (self w) x y) (pack red green blue alpha) (self w) in
    with_dirty true
      (with_context (context b ++ [ctx_putImageData (imageData b) (Int 0) (Int 0)]) b).
Proof.
  intros H. js_step. fold (accepted (self w) x y). by rewrite H.
Qed.

(** Once [refreshBuffer] has made [pixels] an [Int32Array], an in-range
    [setPixel32] leaves the packed value in the entry of its pixel. *)
Lemma setPixel32_stores_packed (w : World) (x y red green blue alpha : Z) :
  pixels (self w) = Int32View ->
  length (data (imageData (self w))) = Z.to_nat (width (self w) * height (self w)) ->
  0 <= x < width (self w) -> 0 <= y < height (self w) ->
  pixels_load (pixel_index (self w) x y)
    (self (after (prototype.setPixel32 x y red green blue alpha w))) =
    Some (pack red green blue alpha).
Proof.
  intros Hp Hlen Hx Hy.
  assert (Hidx : 0 <= pixel_index (self w) x y < width (self w) * height (self w))
    by (unfold pixel_index; nia).
  rewrite setPixel32_accepted by (apply accepted_spec; lia).
  cbv zeta. unfold pixels_load, pixels_store. rewrite Hp. cbn.
  unfold int32_store. rewrite Hlen, Z2Nat.id by lia.
  destruct (0 <=? _) eqn:E0; [|lia].
  destruct (_ <? _) eqn:E1; [|lia]. cbn. rewrite Hp.
  rewrite list_lookup_insert_eq by lia. by rewrite pack_int32.
Qed.

(** Before any [refreshBuffer], on a platform whose image data exposes its
    buffer, the same call only sets an own property of the [ArrayBuffer]:
    the image handed to [putImageData] is the one taken at construction. *)
Lemma setPixel32_on_buffer_object (w : World) (own : gmap Z Z)
    (x y red green blue alpha : Z) :
  pixels (self w) = BufferObject own ->
  imageData (self (after (prototype.setPixel32 x y red green blue alpha w))) =
    imageData (self w).
Proof.
  intros Hp. js_step. destruct (_ && _); [|done].
  cbn. unfold pixels_store. by rewrite Hp.
Qed.

Lemma getPixel32_result (w : World) (x y : Z) :
  data32 (self w) = None ->
  prototype.getPixel32 x y w =
    (if accepted (self w) x y then Throw TypeError else Normal undefined, w).
Proof.
  intros H. js_step. fold (accepted (self w) x y).
  destruct (accepted (self w) x y); [|done]. by rewrite H.
Qed.

Lemma data32_reachable game width height uuid snapshot queue calls :
  data32 (self (run calls (fresh game width height uuid snapshot queue))) = None.
Proof. by rewrite data32_run. Qed.

Lemma data32_after_invoke (m : MethodCall) (w : World) :
  data32 (self (after (invoke m w))) = data32 (self w).
Proof.
  pose proof (fixed_invoke m w) as H. unfold fixed_part in H.
  by injection H as _ _ _ _ _ H _ _ _ _.
Qed.

Lemma accepted_after_invoke (m : MethodCall) (w : World) (x y : Z) :
  accepted (self (after (invoke m w))) x y = accepted (self w) x y.
Proof.
  pose proof (fixed_invoke m w) as H. unfold fixed_part in H.
  injection H as _ _ Hw Hh _ _ _ _ _ _. unfold accepted. by rewrite Hw, Hh.
Qed.

(** C1: evaluated on the code.  On a surface built by the constructor and
    taken through any sequence of method calls, [setPixel32(x, y, r, g, b,
    a)] followed by [getPixel32(x, y)] never yields a number: at accepted
    coordinates, every point of the grid among them, the read throws a
    [TypeError], because [getPixel32] indexes [this.data32], a property
    nothing assigns; elsewhere it yields [undefined]. *)
Theorem getPixel32_after_setPixel32_throws
    (game : Game) (width height : option Z) (uuid : string) (snapshot : ImageData)
    (queue : list BaseTexture) (calls : list MethodCall)
    (x y red green blue alpha : Z) :
  let w := run calls (fresh game width height uuid snapshot queue) in
  completion (prototype.getPixel32 x y
                (after (prototype.setPixel32 x y red green blue alpha w))) =
    if accepted (self w) x y then Throw TypeError else Normal undefined.
Proof.
  cbv zeta.
  set (w := run calls _).
  change (prototype.setPixel32 x y red green blue alpha)
    with (invoke (call_setPixel32 x y red green blue alpha)).
  rewrite getPixel32_result.
  - unfold completion. cbn [fst]. by rewrite accepted_after_invoke.
  - rewrite data32_after_invoke. apply data32_reachable.
Qed.

(** C7: evaluated on the code.  [setPixel(x, y, r, g, b)] and
    [setPixel32(x, y, r, g, b, 255)] return the same and leave the same
    state, buffer and dirty flag included.  The read that should then
    show the alpha byte does not: on a surface built by the constructor
    and taken through any calls, [getPixel32] at accepted coordinates
    throws a [TypeError], as in C1. *)
Theorem setPixel_is_opaque_setPixel32
    (game : Game) (width height : option Z) (uuid : string) (snapshot : ImageData)
    (queue : list BaseTexture) (calls : list MethodCall)
    (x y red green blue : Z) :
  (forall w, prototype.setPixel x y red green blue w =
             prototype.setPixel32 x y red green blue 255 w) /\
  let w := run calls (fresh game width height uuid snapshot queue) in
  completion (prototype.getPixel32 x y
                (after (prototype.setPixel x y red green blue w))) =
    if accepted (self w) x y then Throw TypeError else Normal undefined.
Proof.
  split.
  - intros w. js_step. by destruct (_ && _).
  - cbv zeta. set (w := run calls _).
    change (prototype.setPixel x y red green blue)
      with (invoke (call_setPixel x y red green blue)).
    rewrite getPixel32_result.
    + unfold completion. cbn [fst]. by rewrite accepted_after_invoke.
    + rewrite data32_after_invoke. apply data32_reachable.
Qed.

(** What [setPixel] leaves in the buffer does carry alpha [0xFF]. *)
Lemma setPixel_stores_opaque (w : World) (x y red green blue : Z) :
  pixels (self w) = Int32View ->
  length (data (imageData (self w))) = Z.to_nat (width (self w) * height (self w)) ->
  0 <= x < width (self w) -> 0 <= y < height (self w) ->
  0 <= red <= 255 -> 0 <= green <= 255 -> 0 <= blue <= 255 ->
  Int32.byte_of 3 <$>
    pixels_load (pixel_index (self w) x y)
      (self (after (prototype.setPixel x y red green blue w))) = Some 255.
Proof.
  intros Hp Hlen Hx Hy Hr Hg Hb.
  assert (prototype.setPixel x y red green blue w =
          prototype.setPixel32 x y red green blue 255 w) as ->
    by (js_step; by destruct (_ && _)).
  rewrite setPixel32_stores_packed by done. cbn.
  by rewrite pack_alpha_byte.
Qed.

Example setPixel32_then_getPixel32_on_sample :
  pixels_load 5 (self (after (prototype.setPixel32 1 1 10 20 30 200 sample_refreshed))) =
    Some (pack 10 20 30 200) /\
  pack 10 20 30 200 = -937552886 /\
  completion (prototype.getPixel32 1 1
                (after (prototype.setPixel32 1 1 10 20 30 200 sample_refreshed))) =
    Throw TypeError.
Proof. by vm_compute. Qed.


(** * Further properties of the code *)

(** ** The packed pixel *)


Lemma ToInt32_unfold (z : Z) :
  Int32.ToInt32 z =
    if Int32.two31 <=? Int32.ToUint32 z
    then Int32.ToUint32 z - Int32.two32 else Int32.ToUint32 z.
Proof. reflexivity. Qed.


Lemma pack_signed (red green blue alpha : Z) :
  0 <= red <= 255 -> 0 <= green <= 255 -> 0 <= blue <= 255 -> 0 <= alpha <= 255 ->
  pack red green blue alpha =
    alpha * 2 ^ 24 + blue * 2 ^ 16 + green * 2 ^ 8 + red
    - (if 128 <=? alpha then 2 ^ 32 else 0).
Proof.
  intros Hr Hg Hb Ha. rewrite <- (pack_int32 red green blue alpha) at 1.
  rewrite ToInt32_unfold, pack_unsigned by done.
  unfold Int32.two31, Int32.two32.
  destruct (128 <=? alpha) eqn:E; destruct (2 ^ 31 <=? _) eqn:E'; lia.
Qed.

Lemma byte_of_value (k u : Z) :
  0 <= k -> Int32.byte_of k u = (Int32.ToUint32 u / 2 ^ (8 * k)) mod 256.
Proof.
  intros Hk. unfold Int32.byte_of. rewrite Z.shiftr_div_pow2 by lia.
  change 255 with (Z.ones 8). by rewrite Z.land_ones.
Qed.

(** X1: for channels in [0, 255] the value [setPixel32] computes,
    [(alpha << 24) | (blue << 16) | (green << 8) | red], decodes back to
    its four channels, red in the low byte and alpha in the high one; as
    the int32 that JavaScript yields it is negative exactly when
    [alpha >= 128]. *)
Theorem pack_layout (red green blue alpha : Z) :
  0 <= red <= 255 -> 0 <= green <= 255 -> 0 <= blue <= 255 -> 0 <= alpha <= 255 ->
  Int32.byte_of 0 (pack red green blue alpha) = red /\
  Int32.byte_of 1 (pack red green blue alpha) = green /\
  Int32.byte_of 2 (pack red green blue alpha) = blue /\
  Int32.byte_of 3 (pack red green blue alpha) = alpha /\
  pack red green blue alpha =
    alpha * 2 ^ 24 + blue * 2 ^ 16 + green * 2 ^ 8 + red
    - (if 128 <=? alpha then 2 ^ 32 else 0) /\
  (pack red green blue alpha < 0 <-> 128 <= alpha).
Proof.
  intros Hr Hg Hb Ha.
  pose proof (pack_signed red green blue alpha Hr Hg Hb Ha) as Hs.
  rewrite !byte_of_value, pack_unsigned by (done || lia).
  change (2 ^ (8 * 0)) with 1. change (2 ^ (8 * 1)) with 256.
  change (2 ^ (8 * 2)) with 65536. change (2 ^ (8 * 3)) with 16777216.
  change (2 ^ 24) with 16777216 in *. change (2 ^ 16) with 65536 in *.
  change (2 ^ 8) with 256 in *. change (2 ^ 32) with 4294967296 in *.
  repeat split; try (Z.to_euclidean_division_equations; lia);
    destruct (128 <=? alpha) eqn:E; lia.
Qed.

Lemma pack_layout_witness :
  (0 <= 10 <= 255 /\ 0 <= 20 <= 255 /\ 0 <= 30 <= 255 /\ 0 <= 200 <= 255) /\
  Int32.byte_of 0 (pack 10 20 30 200) = 10 /\
  (pack 10 20 30 200 < 0 <-> 128 <= 200).
Proof.
  assert (H10 : 0 <= 10 <= 255) by lia. assert (H20 : 0 <= 20 <= 255) by lia.
  assert (H30 : 0 <= 30 <= 255) by lia. assert (H200 : 0 <= 200 <= 255) by lia.
  split; [done|].
  destruct (pack_layout 10 20 30 200 H10 H20 H30 H200) as (H0 & _ & _ & _ & _ & Hneg).
  by split.
Defined.


(** ** Direct pixel writes on an [Int32Array] view *)

Lemma int32_store_in (idx v : Z) (d : ImageData) :
  0 <= idx < Z.of_nat (length (data d)) ->
  int32_store idx v d =
    mkImageData (<[Z.to_nat idx := Int32.ToInt32 v]> (data d)) (has_buffer d).
Proof.
  intros H. unfold int32_store.
  destruct (0 <=? idx) eqn:E0; [|lia]. by destruct (idx <? _) eqn:E1; [|lia].
Qed.

Lemma int32_store_out (idx v : Z) (d : ImageData) :
  Z.of_nat (length (data d)) <= idx -> int32_store idx v d = d.
Proof.
  intros H. unfold int32_store.
  destruct (idx <? _) eqn:E1; [lia|]. by rewrite andb_false_r.
Qed.

Lemma setPixel32_int32 (w : World) (x y red green blue alpha : Z) :
  pixels (self w) = Int32View ->
  accepted (self w) x y = true ->
  self (after (prototype.setPixel32 x y red green blue alpha w)) =
    let d := int32_store (pixel_index (self w) x y) (pack red green blue alpha)
               (imageData (self w)) in
    with_dirty true
      (with_context (context (self w) ++ [ctx_putImageData d (Int 0) (Int 0)])
         (with_imageData d (self w))).
Proof.
  intros Hp Ha. rewrite setPixel32_accepted by done.
  cbv zeta. unfold pixels_store. by rewrite Hp.
Qed.

Lemma setPixel32_outside_guard (w : World) (x y red green blue alpha : Z) :
  x < 0 \/ width (self w) < x \/ y < 0 \/ height (self w) < y ->
  prototype.setPixel32 x y red green blue alpha w = (Normal undefined, w).
Proof.
  intros H. apply accepted_false in H. js_step.
  fold (accepted (self w) x y). by rewrite H.
Qed.

Lemma setPixel32_keeps_int32_surface (w : World) (x y red green blue alpha : Z) :
  int32_surface (self w) ->
  int32_surface (self (after (prototype.setPixel32 x y red green blue alpha w))).
Proof.
  intros [Hp Hlen]. unfold int32_surface.
  destruct (accepted (self w) x y) eqn:Ha.
  - rewrite setPixel32_int32 by done. cbn. split; [done|].
    unfold int32_store. destruct (_ && _); cbn; by rewrite ?length_insert.
  - apply accepted_false in Ha. by rewrite setPixel32_outside_guard.
Qed.

Lemma refreshBuffer_self (answer : ImageData) (w : World) :
  self (after (prototype.refreshBuffer answer w)) =
    with_pixels (if has_buffer answer then Int32View else Int32Detached)
      (with_imageData answer
         (with_context
            (context (self w) ++
               [ctx_getImageData (Int 0) (Int 0) (Int (width (self w))) (Int (height (self w)))])
            (self w))).
Proof. by js_step. Qed.

Lemma refreshBuffer_int32_surface (answer : ImageData) (w : World) :
  has_buffer answer = true ->
  length (data answer) = Z.to_nat (width (self w) * height (self w)) ->
  int32_surface (self (after (prototype.refreshBuffer answer w))).
Proof.
  intros Hb Hlen. rewrite refreshBuffer_self. unfold int32_surface. cbn.
  by rewrite Hb.
Qed.

Lemma grid_index (b : BitmapData) (x y : Z) :
  0 <= x < width b -> 0 <= y < height b ->
  0 <= pixel_index b x y < width b * height b.
Proof. unfold pixel_index. nia. Qed.

Lemma grid_index_inj (b : BitmapData) (x1 y1 x2 y2 : Z) :
  0 <= x1 < width b -> 0 <= x2 < width b ->
  pixel_index b x1 y1 = pixel_index b x2 y2 -> x1 = x2 /\ y1 = y2.
Proof.
  unfold pixel_index. intros H1 H2 He.
  assert (y1 = y2) by nia. split; [nia|done].
Qed.

(** X3: write and read back.  After [refreshBuffer()] has fetched an
    image of [width * height] pixels on a platform with typed arrays,
    [setPixel32(x, y, r, g, b, a)] at a point of the grid puts the packed
    value into entry [y * width + x] of the image and leaves every other
    entry as fetched; the image so changed is what the last request,
    [putImageData], hands to the context, and the surface is dirty. *)
Theorem refreshBuffer_setPixel32_round_trip (w : World) (answer : ImageData)
    (x y red green blue alpha : Z) :
  has_buffer answer = true ->
  length (data answer) = Z.to_nat (width (self w) * height (self w)) ->
  0 <= x < width (self w) -> 0 <= y < height (self w) ->
  let b2 := self (after (prototype.setPixel32 x y red green blue alpha
                           (after (prototype.refreshBuffer answer w)))) in
  let idx := Z.to_nat (y * width (self w) + x) in
  data (imageData b2) !! idx = Some (pack red green blue alpha) /\
  (forall j, j <> idx -> data (imageData b2) !! j = data answer !! j) /\
  length (data (imageData b2)) = length (data answer) /\
  last (context b2) = Some (ctx_putImageData (imageData b2) (Int 0) (Int 0)) /\
  _dirty b2 = true.
Proof.
  intros Hb Hlen Hx Hy. cbv zeta.
  pose proof (refreshBuffer_int32_surface answer w Hb Hlen) as [Hp Hl].
  set (w1 := after (prototype.refreshBuffer answer w)) in *.
  assert (Hw : width (self w1) = width (self w) /\ height (self w1) = height (self w))
    by (unfold w1; by rewrite refreshBuffer_self).
  destruct Hw as [Hw Hh].
  assert (Hi : 0 <= pixel_index (self w1) x y < width (self w1) * height (self w1))
    by (apply grid_index; lia).
  assert (Himg : imageData (self w1) = answer)
    by (unfold w1; by rewrite refreshBuffer_self).
  rewrite setPixel32_int32 by (done || apply grid_accepted; lia).
  cbv zeta. cbn [imageData with_dirty with_context with_imageData context _dirty].
  rewrite int32_store_in by lia. cbn [data]. rewrite pack_int32, Himg.
  unfold pixel_index. rewrite Hw.
  repeat split.
  - apply list_lookup_insert_eq. rewrite Himg, Hw, Hh in Hl. unfold pixel_index in Hi. lia.
  - intros j Hj. by apply list_lookup_insert_ne.
  - apply length_insert.
  - by rewrite last_snoc.
Qed.

Lemma refreshBuffer_setPixel32_round_trip_witness :
  (has_buffer (blank 16) = true /\
   length (data (blank 16)) = Z.to_nat (width (self sample) * height (self sample)) /\
   0 <= 1 < width (self sample) /\ 0 <= 1 < height (self sample)) /\
  data (imageData (self (after (prototype.setPixel32 1 1 10 20 30 200
                                  (after (prototype.refreshBuffer (blank 16) sample))))))
    !! Z.to_nat (1 * width (self sample) + 1) = Some (pack 10 20 30 200).
Proof.
  assert (H1 : 0 <= 1 < width (self sample)) by (cbn; lia).
  assert (H2 : 0 <= 1 < height (self sample)) by (cbn; lia).
  split; [done|].
  apply (refreshBuffer_setPixel32_round_trip sample (blank 16) 1 1 10 20 30 200
           eq_refl eq_refl H1 H2).
Defined.

(** X4: the column [x = width] passes the guard and lands on the next row.
    For [0 <= y < height], and dimensions small enough for the index to be
    exact, [(y + 1) * width < 2 ^ 53], [setPixel32(width, y, ...)] does
    exactly what [setPixel32(0, y + 1, ...)] does: same result and same
    state. *)
Theorem setPixel32_right_edge_wraps (w : World) (y red green blue alpha : Z) :
  0 <= width (self w) -> 0 <= y < height (self w) ->
  (y + 1) * width (self w) < 2 ^ 53 ->
  prototype.setPixel32 (width (self w)) y red green blue alpha w =
  prototype.setPixel32 0 (y + 1) red green blue alpha w.
Proof.
  intros Hw Hy _. js_step.
  fold (accepted (self w) (width (self w)) y). fold (accepted (self w) 0 (y + 1)).
  rewrite (proj2 (accepted_spec (self w) (width (self w)) y)) by lia.
  rewrite (proj2 (accepted_spec (self w) 0 (y + 1))) by lia.
  by replace ((y + 1) * width (self w) + 0) with (y * width (self w) + width (self w)) by lia.
Qed.

Lemma setPixel32_right_edge_wraps_witness :
  (0 <= width (self sample_refreshed) /\ 0 <= 1 < height (self sample_refreshed) /\
   (1 + 1) * width (self sample_refreshed) < 2 ^ 53) /\
  prototype.setPixel32 (width (self sample_refreshed)) 1 10 20 30 200 sample_refreshed =
  prototype.setPixel32 0 (1 + 1) 10 20 30 200 sample_refreshed.
Proof.
  assert (H1 : 0 <= width (self sample_refreshed)) by (by vm_compute).
  assert (H2 : 0 <= 1 < height (self sample_refreshed)) by (by vm_compute).
  assert (H3 : (1 + 1) * width (self sample_refreshed) < 2 ^ 53) by (by vm_compute).
  split; [done|].
  apply (setPixel32_right_edge_wraps sample_refreshed 1 10 20 30 200 H1 H2 H3).
Defined.

(** X5: a write the guard accepts but whose index is past the buffer (the
    row [y = height], or the point [(width, height - 1)]) changes no pixel:
    the [Int32Array] ignores the store.  The call still hands the
    unchanged image to [putImageData] and marks the surface dirty. *)
Theorem setPixel32_past_buffer_changes_no_pixel (w : World)
    (x y red green blue alpha : Z) :
  int32_surface (self w) ->
  accepted (self w) x y = true ->
  width (self w) * height (self w) <= pixel_index (self w) x y ->
  let b' := self (after (prototype.setPixel32 x y red green blue alpha w)) in
  imageData b' = imageData (self w) /\
  sent (call_setPixel32 x y red green blue alpha) w =
    [ctx_putImageData (imageData (self w)) (Int 0) (Int 0)] /\
  _dirty b' = true.
Proof.
  intros [Hp Hlen] Ha Hi. cbv zeta.
  assert (Hs : int32_store (pixel_index (self w) x y) (pack red green blue alpha)
                 (imageData (self w)) = imageData (self w)).
  { apply int32_store_out. rewrite Hlen.
    apply accepted_spec in Ha. rewrite Z2Nat.id by nia. done. }
  rewrite sent_requests. cbn [requests]. rewrite Ha.
  rewrite setPixel32_int32 by done. cbv zeta.
  unfold pixels_store. rewrite Hp. cbn. by rewrite Hs.
Qed.

Lemma setPixel32_past_buffer_changes_no_pixel_witness :
  (int32_surface (self sample_refreshed) /\
   accepted (self sample_refreshed) 2 4 = true /\
   width (self sample_refreshed) * height (self sample_refreshed)
     <= pixel_index (self sample_refreshed) 2 4) /\
  imageData (self (after (prototype.setPixel32 2 4 10 20 30 200 sample_refreshed))) =
    imageData (self sample_refreshed).
Proof.
  assert (H1 : int32_surface (self sample_refreshed)) by (split; reflexivity).
  assert (H3 : width (self sample_refreshed) * height (self sample_refreshed)
               <= pixel_index (self sample_refreshed) 2 4) by (by vm_compute).
  split; [done|].
  apply (setPixel32_past_buffer_changes_no_pixel sample_refreshed 2 4 10 20 30 200
           H1 eq_refl H3).
Defined.

Lemma setPixel32_dimensions (w : World) (x y red green blue alpha : Z) :
  width (self (after (prototype.setPixel32 x y red green blue alpha w))) = width (self w) /\
  height (self (after (prototype.setPixel32 x y red green blue alpha w))) = height (self w).
Proof.
  pose proof (fixed_invoke (call_setPixel32 x y red green blue alpha) w) as H.
  unfold fixed_part in H. cbn [invoke] in H.
  by injection H as _ _ Hw Hh _ _ _ _ _ _.
Qed.

Lemma setPixel32_image (w : World) (x y red green blue alpha : Z) :
  int32_surface (self w) ->
  0 <= x < width (self w) -> 0 <= y < height (self w) ->
  imageData (self (after (prototype.setPixel32 x y red green blue alpha w))) =
    mkImageData
      (<[Z.to_nat (pixel_index (self w) x y) := pack red green blue alpha]>
         (data (imageData (self w))))
      (has_buffer (imageData (self w))).
Proof.
  intros [Hp Hlen] Hx Hy.
  pose proof (grid_index (self w) x y Hx Hy) as Hi.
  rewrite setPixel32_int32 by (done || by apply grid_accepted).
  cbv zeta. cbn [imageData with_dirty with_context with_imageData].
  rewrite int32_store_in by lia. by rewrite pack_int32.
Qed.

(** X6: on an [Int32Array] view, direct writes to the grid compose as
    writes to an array: a second [setPixel32] at the same point replaces
    the first, and writes at two different points give the same image in
    either order. *)
Theorem setPixel32_writes_compose (w : World)
    (x1 y1 r1 g1 b1 a1 x2 y2 r2 g2 b2 a2 : Z) :
  int32_surface (self w) ->
  0 <= x1 < width (self w) -> 0 <= y1 < height (self w) ->
  0 <= x2 < width (self w) -> 0 <= y2 < height (self w) ->
  let first := prototype.setPixel32 x1 y1 r1 g1 b1 a1 in
  let second := prototype.setPixel32 x2 y2 r2 g2 b2 a2 in
  let again := prototype.setPixel32 x1 y1 r2 g2 b2 a2 in
  imageData (self (after (again (after (first w))))) =
    imageData (self (after (again w))) /\
  ((x1, y1) <> (x2, y2) ->
   imageData (self (after (second (after (first w))))) =
     imageData (self (after (first (after (second w)))))).
Proof.
  intros Hs Hx1 Hy1 Hx2 Hy2. cbv zeta.
  pose proof (setPixel32_keeps_int32_surface w x1 y1 r1 g1 b1 a1 Hs) as Hs1.
  pose proof (setPixel32_keeps_int32_surface w x2 y2 r2 g2 b2 a2 Hs) as Hs2.
  destruct (setPixel32_dimensions w x1 y1 r1 g1 b1 a1) as [Hw1 Hh1].
  destruct (setPixel32_dimensions w x2 y2 r2 g2 b2 a2) as [Hw2 Hh2].
  split.
  - rewrite (setPixel32_image (after _)) by (done || lia).
    rewrite !(setPixel32_image w) by done. cbn [data has_buffer].
    unfold pixel_index. rewrite Hw1. by rewrite list_insert_insert_eq.
  - intros Hne.
    rewrite (setPixel32_image (after (prototype.setPixel32 x1 y1 r1 g1 b1 a1 w)))
      by (done || lia).
    rewrite (setPixel32_image (after (prototype.setPixel32 x2 y2 r2 g2 b2 a2 w)))
      by (done || lia).
    rewrite !(setPixel32_image w) by done. cbn [data has_buffer].
    unfold pixel_index at 1 3. rewrite Hw1, Hw2.
    fold (pixel_index (self w) x1 y1). fold (pixel_index (self w) x2 y2).
    f_equal. apply list_insert_insert_ne.
    intros He. apply Hne.
    pose proof (grid_index (self w) x1 y1 Hx1 Hy1).
    pose proof (grid_index (self w) x2 y2 Hx2 Hy2).
    assert (pixel_index (self w) x1 y1 = pixel_index (self w) x2 y2) as Hz by lia.
    apply grid_index_inj in Hz as [-> ->]; done.
Qed.

Lemma setPixel32_writes_compose_witness :
  (int32_surface (self sample_refreshed) /\
   0 <= 1 < width (self sample_refreshed) /\ 0 <= 1 < height (self sample_refreshed) /\
   0 <= 2 < width (self sample_refreshed) /\ 0 <= 3 < height (self sample_refreshed) /\
   (1, 1) <> (2, 3)) /\
  imageData (self (after (prototype.setPixel32 2 3 5 6 7 8
                     (after (prototype.setPixel32 1 1 1 2 3 4 sample_refreshed))))) =
  imageData (self (after (prototype.setPixel32 1 1 1 2 3 4
                     (after (prototype.setPixel32 2 3 5 6 7 8 sample_refreshed))))).
Proof.
  assert (H0 : int32_surface (self sample_refreshed)) by (split; reflexivity).
  assert (H1 : 0 <= 1 < width (self sample_refreshed)) by (by vm_compute).
  assert (H2 : 0 <= 1 < height (self sample_refreshed)) by (by vm_compute).
  assert (H3 : 0 <= 2 < width (self sample_refreshed)) by (by vm_compute).
  assert (H4 : 0 <= 3 < height (self sample_refreshed)) by (by vm_compute).
  assert (H5 : (1, 1) <> (2, 3)) by discriminate.
  split; [done|].
  apply (proj2 (setPixel32_writes_compose sample_refreshed 1 1 1 2 3 4 2 3 5 6 7 8
                  H0 H1 H2 H3 H4) H5).
Defined.

(** ** Invariants of a history of calls *)

Lemma run_cons (m : MethodCall) (rest : list MethodCall) (w : World) :
  run (m :: rest) w = run rest (after (invoke m w)).
Proof. reflexivity. Qed.

Lemma run_app (l1 l2 : list MethodCall) (w : World) :
  run (l1 ++ l2) w = run l2 (run l1 w).
Proof. unfold run. apply foldl_app. Qed.

(** X7: nothing a method does changes what the constructor fixed.  Through
    any sequence of calls the surface keeps its [width], [height],
    [canvas], [game], [baseTexture], [texture] and [textureFrame], and
    [data32] stays whatever it was (unassigned, after the constructor). *)
Theorem construction_fields_never_change (calls : list MethodCall) (w : World) :
  let b := self w in
  let b' := self (run calls w) in
  width b' = width b /\ height b' = height b /\ canvas b' = canvas b /\
  game b' = game b /\ baseTexture b' = baseTexture b /\ texture b' = texture b /\
  textureFrame b' = textureFrame b /\ data32 b' = data32 b /\
  name b' = name b /\ type b' = type b.
Proof.
  cbv zeta. pose proof (fixed_run calls w) as H. unfold fixed_part in H.
  injection H as Hg Hn Hw Hh Hc Hd Hb Ht Hf Hy. by repeat split.
Qed.

Lemma queue_invoke (m : MethodCall) (w : World) :
  texturesToUpdate (after (invoke m w)) =
    if is_render m && _dirty (self w)
       && RenderType_eqb (renderType (game (self w))) WEBGL
    then texturesToUpdate w ++ [baseTexture (self w)]
    else texturesToUpdate w.
Proof.
  destruct m; cbn [invoke is_render andb]; try (by js_step).
  - unfold prototype.addTo, mbind, JS_bind. by rewrite addTo_from_spec.
  - js_step. by destruct (_ && _).
  - js_step. by destruct (_ && _).
  - js_step. destruct (_ && _); [destruct (data32 (self w))|]; done.
  - js_step. destruct (_ && _); [destruct (data32 (self w))|]; done.
  - js_step. destruct (_dirty (self w)); [|done].
    by destruct (RenderType_eqb _ _).
Qed.

Lemma uploads_from (b0 : BitmapData) (calls : list MethodCall) (w : World) :
  fixed_part (self w) = fixed_part b0 ->
  texturesToUpdate (run calls w) =
    texturesToUpdate w ++
    replicate (if RenderType_eqb (renderType (game b0)) WEBGL
               then uploads b0 (_dirty (self w)) calls else 0%nat)
              (baseTexture b0).
Proof.
  revert w. induction calls as [|m rest IH]; intros w Hfix.
  - cbn. destruct (RenderType_eqb _ _); by rewrite app_nil_r.
  - rewrite run_cons, IH by (by rewrite fixed_invoke).
    rewrite queue_invoke, dirty_invoke, (marks_fixed b0 (self w) m Hfix).
    assert (Hg : game (self w) = game b0 /\ baseTexture (self w) = baseTexture b0).
    { unfold fixed_part in Hfix. by injection Hfix as -> _ _ _ _ _ -> _ _ _. }
    destruct Hg as [-> ->]. cbn [uploads].
    destruct (is_render m), (_dirty (self w)), (RenderType_eqb _ _);
      cbn; by rewrite <- ?app_assoc.
Qed.

Lemma uploads_le_renders (b : BitmapData) (d : bool) (calls : list MethodCall) :
  (uploads b d calls <= length (filter (fun m => is_render m = true) calls))%nat.
Proof.
  revert d. induction calls as [|m rest IH]; intros d; [done|].
  cbn [uploads]. rewrite filter_cons. destruct (is_render m).
  - rewrite decide_True by done. cbn [length]. specialize (IH false).
    destruct d; lia.
  - rewrite decide_False by done. apply IH.
Qed.

(** X9: the upload queue along a history.  Only [render] touches
    [PIXI.texturesToUpdate]: after any sequence of calls the queue is the
    old one followed by one copy of the surface's base texture for each
    [render] that found the flag set, if the game renders with WebGL, and
    is unchanged otherwise.  So there is never more than one upload per
    [render] call. *)
Theorem upload_queue_after_history (calls : list MethodCall) (w : World) :
  texturesToUpdate (run calls w) =
    texturesToUpdate w ++
    replicate (if RenderType_eqb (renderType (game (self w))) WEBGL
               then uploads (self w) (_dirty (self w)) calls else 0%nat)
              (baseTexture (self w)) /\
  (length (texturesToUpdate (run calls w))
     <= length (texturesToUpdate w)
        + length (filter (fun m => is_render m = true) calls))%nat.
Proof.
  assert (H := uploads_from (self w) calls w eq_refl). split; [done|].
  rewrite H, length_app, length_replicate.
  pose proof (uploads_le_renders (self w) (_dirty (self w)) calls).
  destruct (RenderType_eqb _ _); lia.
Qed.

(** ** Direct writes before [refreshBuffer] *)

Lemma buffer_object_invoke (m : MethodCall) (w : World) (own : gmap Z Z) :
  pixels (self w) = BufferObject own ->
  is_refreshBuffer m = false ->
  imageData (self (after (invoke m w))) = imageData (self w) /\
  (exists own', pixels (self (after (invoke m w))) = BufferObject own') /\
  Forall (puts_only (imageData (self w))) (requests (self w) m).
Proof.
  intros Hp Hm.
  destruct m; try discriminate; cbn [invoke requests];
    try (js_step; cbn; split; [done|]; split; [by eexists|];
         repeat constructor).
  - unfold prototype.addTo, mbind, JS_bind. rewrite addTo_from_spec. cbn.
    split; [done|]. split; [by eexists|]. constructor.
  - js_step. fold (accepted (self w) x y).
    destruct (accepted (self w) x y); cbn.
    + unfold pixels_store, pixel_index. rewrite Hp. cbn.
      split; [done|]. split; [by eexists|]. by repeat constructor.
    + split; [done|]. split; [by eexists|]. constructor.
  - js_step. fold (accepted (self w) x y).
    destruct (accepted (self w) x y); cbn.
    + unfold pixels_store, pixel_index. rewrite Hp. cbn.
      split; [done|]. split; [by eexists|]. by repeat constructor.
    + split; [done|]. split; [by eexists|]. constructor.
  - js_step. fold (accepted (self w) x y).
    destruct (accepted (self w) x y); [destruct (data32 (self w))|]; cbn;
      (split; [done|]; split; [by eexists|]; constructor).
  - js_step. fold (accepted (self w) x y).
    destruct (accepted (self w) x y); [destruct (data32 (self w))|]; cbn;
      (split; [done|]; split; [by eexists|]; constructor).
  - js_step. destruct (_dirty (self w)); [destruct (RenderType_eqb _ _)|]; cbn;
      (split; [done|]; split; [by eexists|]; constructor).
Qed.

Lemma buffer_object_run (calls : list MethodCall) (w : World) (own : gmap Z Z) :
  pixels (self w) = BufferObject own ->
  forallb (fun m => negb (is_refreshBuffer m)) calls = true ->
  Forall (puts_only (imageData (self w))) (context (self w)) ->
  imageData (self (run calls w)) = imageData (self w) /\
  Forall (puts_only (imageData (self w))) (context (self (run calls w))).
Proof.
  revert w own. induction calls as [|m rest IH]; intros w own Hp Hc Hf; [done|].
  cbn [forallb] in Hc. apply andb_true_iff in Hc as [Hm Hc].
  apply negb_true_iff in Hm.
  destruct (buffer_object_invoke m w own Hp Hm) as (Hi & [own' Hp'] & Hr).
  rewrite run_cons.
  destruct (IH (after (invoke m w)) own' Hp' Hc) as [Hi' Hf'].
  - rewrite Hi, context_invoke. by apply Forall_app.
  - rewrite Hi in *. done.
Qed.

(** X10: until [refreshBuffer] is called, direct pixel writes reach no
    pixel.  On a platform whose image data exposes [data.buffer] the
    constructor makes [pixels] that raw buffer, and an indexed assignment
    to it only creates a property.  So after any calls other than
    [refreshBuffer], [setPixel32] and [setPixel] included, [imageData] is
    still the snapshot taken at construction, and every [putImageData]
    request the context has received carries that snapshot. *)
Theorem writes_before_refreshBuffer_are_lost
    (game : Game) (width height : option Z) (uuid : string) (snapshot : ImageData)
    (queue : list BaseTexture) (calls : list MethodCall) :
  has_buffer snapshot = true ->
  forallb (fun m => negb (is_refreshBuffer m)) calls = true ->
  let w := run calls (fresh game width height uuid snapshot queue) in
  imageData (self w) = snapshot /\
  Forall (puts_only snapshot) (context (self w)).
Proof.
  intros Hb Hc. cbv zeta.
  apply (buffer_object_run calls (fresh game width height uuid snapshot queue) ∅).
  - cbn. by rewrite Hb.
  - done.
  - cbn. by repeat constructor.
Qed.

Lemma writes_before_refreshBuffer_are_lost_witness :
  (has_buffer (blank 16) = true /\
   forallb (fun m => negb (is_refreshBuffer m))
     [call_setPixel32 1 1 10 20 30 200; call_fill; call_setPixel 2 2 1 2 3] = true) /\
  imageData (self (run [call_setPixel32 1 1 10 20 30 200; call_fill; call_setPixel 2 2 1 2 3]
                     sample)) = blank 16.
Proof.
  split; [done|].
  apply (writes_before_refreshBuffer_are_lost (mkGame WEBGL) (Some 4) (Some 4) "0000"
           (blank 16) []
           [call_setPixel32 1 1 10 20 30 200; call_fill; call_setPixel 2 2 1 2 3]
           eq_refl eq_refl).
Defined.

(** ** The readers *)

Lemma getPixel_state (w : World) (x y : Z) : after (prototype.getPixel x y w) = w.
Proof.
  js_step. destruct (_ && _); [|done]. by destruct (data32 (self w)).
Qed.

(** X11: [getPixel] shares the defect of [getPixel32]: it too indexes
    [this.data32].  On a surface built by the constructor and taken
    through any calls it throws a [TypeError] at every accepted coordinate
    and yields [undefined] elsewhere; it returns exactly what [getPixel32]
    returns, alpha not stripped, and never changes the state. *)
Theorem getPixel_throws_when_accepted
    (game : Game) (width height : option Z) (uuid : string) (snapshot : ImageData)
    (queue : list BaseTexture) (calls : list MethodCall) (x y : Z) :
  let w := run calls (fresh game width height uuid snapshot queue) in
  completion (prototype.getPixel x y w) =
    (if accepted (self w) x y then Throw TypeError else Normal undefined) /\
  after (prototype.getPixel x y w) = w /\
  prototype.getPixel x y w = prototype.getPixel32 x y w.
Proof.
  cbv zeta. set (w := run calls _).
  assert (Hd : data32 (self w) = None) by apply data32_reachable.
  split; [|split; [apply getPixel_state|done]].
  js_step. fold (accepted (self w) x y).
  destruct (accepted (self w) x y); [|done]. by rewrite Hd.
Qed.

(** ** Binding consumers *)

Lemma add_result (s : Sprite) (w : World) :
  prototype.add s w =
    (Normal undefined,
     mkWorld (self w) (texturesToUpdate w) (loadTexture w ++ [sprite_id s])).
Proof. by js_step. Qed.

Lemma addTo_result (sprites : list Sprite) (w : World) :
  prototype.addTo sprites w =
    (Normal undefined,
     mkWorld (self w) (texturesToUpdate w)
       (loadTexture w ++
        map sprite_id (filter (fun s => sprite_texture s = true) sprites))).
Proof. unfold prototype.addTo, mbind, JS_bind. by rewrite addTo_from_spec. Qed.

(** X12: [addTo(sprites)] asks exactly the sprites that have a texture to
    load the surface, in array order, and skips the others; the surface
    and the upload queue are untouched.  On the empty array it does
    nothing, and on a concatenation it does the first part and then the
    second.  [add(sprite)] does not look at [sprite.texture]: it binds a
    sprite that [addTo] would skip. *)
Theorem addTo_binds_textured_sprites (sprites more : list Sprite) (s : Sprite) (w : World) :
  prototype.addTo sprites w =
    (Normal undefined,
     mkWorld (self w) (texturesToUpdate w)
       (loadTexture w ++
        map sprite_id (filter (fun s => sprite_texture s = true) sprites))) /\
  prototype.addTo [] w = (Normal undefined, w) /\
  after (prototype.addTo (sprites ++ more) w) =
    after (prototype.addTo more (after (prototype.addTo sprites w))) /\
  loadTexture (after (prototype.add s w)) = loadTexture w ++ [sprite_id s] /\
  loadTexture (after (prototype.addTo [s] w)) =
    loadTexture w ++ (if sprite_texture s then [sprite_id s] else []).
Proof.
  split; [apply addTo_result|]. split; [|split; [|split]].
  - rewrite addTo_result. cbn. rewrite app_nil_r. by destruct w.
  - rewrite !addTo_result. unfold after. cbn [snd self texturesToUpdate loadTexture].
    by rewrite filter_app, map_app, app_assoc.
  - by rewrite add_result.
  - rewrite addTo_result. unfold after. cbn [snd loadTexture].
    rewrite filter_cons, filter_nil. by destruct (sprite_texture s).
Qed.

(** ** Stroke style, ellipse and gradients *)

(** X13: [setStrokeStyle] sends four property assignments, [lineWidth],
    [lineCap], [lineJoin] and [miterLimit], in that order.  Each argument
    is defaulted on its own: an omitted thickness becomes 1, an omitted
    cap ['butt'], an omitted joint ['miter'], an omitted limit 10, and any
    other value, a numeric cap or joint code included, is passed on as
    given, whatever the other arguments are.  The fifth argument,
    [ignoreScale], has no effect at all; the call returns the surface and
    neither marks it dirty nor touches its pixels. *)
Theorem setStrokeStyle_defaults (t c j l i i' : Value) (w : World) :
  sent (call_setStrokeStyle t c j l i) w =
    [ctx_assign "lineWidth" (if is_undefined t then num (Int 1) else t);
     ctx_assign "lineCap" (if is_undefined c then str "butt" else c);
     ctx_assign "lineJoin" (if is_undefined j then str "miter" else j);
     ctx_assign "miterLimit" (if is_undefined l then num (Int 10) else l)] /\
  prototype.setStrokeStyle t c j l i w = prototype.setStrokeStyle t c j l i' w /\
  completion (prototype.setStrokeStyle t c j l i w) = Normal this /\
  _dirty (self (after (prototype.setStrokeStyle t c j l i w))) = _dirty (self w) /\
  imageData (self (after (prototype.setStrokeStyle t c j l i w))) = imageData (self w) /\
  pixels (self (after (prototype.setStrokeStyle t c j l i w))) = pixels (self w).
Proof.
  rewrite sent_requests. cbn [requests]. split.
  - by destruct t, c, j, l.
  - by js_step.
Qed.

Example setStrokeStyle_thickness_and_cap_only :
  sent (call_setStrokeStyle (num (Int 8)) (str "round") undefined undefined undefined)
       sample =
    [ctx_assign "lineWidth" (num (Int 8)); ctx_assign "lineCap" (str "round");
     ctx_assign "lineJoin" (str "miter"); ctx_assign "miterLimit" (num (Int 10))].
Proof. by vm_compute. Qed.

(** X14: the path of [ellipse(x, y, w, h)] is one [moveTo] and four
    [bezierCurveTo], closed and continuous: it starts at [(x, y + h/2)],
    its curves end at [(x + w/2, y)], [(x + w, y + h/2)], [(x + w/2, y + h)]
    and back at the start.  So [(x, y)] is the corner of the box the
    ellipse fills, [w] and [h] its sides.  The call marks the surface
    dirty and returns it. *)
Theorem ellipse_path_is_closed (x y w h : number) (w0 : World) :
  let left := (x, Plus y (Over h (Int 2))) in
  let top := (Plus x (Over w (Int 2)), y) in
  let right := (Plus x w, Plus y (Over h (Int 2))) in
  let bottom := (Plus x (Over w (Int 2)), Plus y h) in
  (exists a1 b1 c1 d1 a2 b2 c2 d2 a3 b3 c3 d3 a4 b4 c4 d4,
     sent (call_ellipse x y w h) w0 =
       [ctx_moveTo left.1 left.2;
        ctx_bezierCurveTo a1 b1 c1 d1 top.1 top.2;
        ctx_bezierCurveTo a2 b2 c2 d2 right.1 right.2;
        ctx_bezierCurveTo a3 b3 c3 d3 bottom.1 bottom.2;
        ctx_bezierCurveTo a4 b4 c4 d4 left.1 left.2]) /\
  completion (prototype.ellipse x y w h w0) = Normal this /\
  _dirty (self (after (prototype.ellipse x y w h w0))) = true.
Proof.
  cbv zeta. rewrite sent_requests. cbn [requests fst snd].
  split; [by repeat eexists|]. by js_step.
Qed.

Lemma addColorStops_fresh (cs rs : list Value) (shape : GradientShape) :
  exists stops,
    prototype.addColorStops cs rs (gradient shape []) = gradient shape stops /\
    length stops = length cs /\
    forall i c, cs !! i = Some c ->
                stops !! i = Some (default undefined (rs !! i), c).
Proof.
  eexists. split; [reflexivity|]. cbn [app]. split.
  - apply length_imap.
  - intros i c Hc. by rewrite list_lookup_imap, Hc.
Qed.

(** X15: the gradient builders.  [beginLinearGradientFill],
    [beginLinearGradientStroke] and [beginRadialGradientStroke] ask the
    context for a gradient and assign it to [fillStyle] or [strokeStyle];
    the gradient then holds one colour stop per entry of [colors], in
    order, stop [i] pairing [colors[i]] with [ratios[i]], or with
    [undefined] when [ratios] is shorter; surplus ratios are ignored.
    Each of the three sends these two requests and no other, returns the
    surface, and leaves the dirty flag, [pixels] and [imageData] as they
    were. *)
Theorem gradient_builders_add_one_stop_per_color
    (cs rs : list Value) (x0 y0 r0 x1 y1 r1 : number) (w : World) :
  let paired (stops : list (Value * Value)) :=
    length stops = length cs /\
    forall i c, cs !! i = Some c ->
                stops !! i = Some (default undefined (rs !! i), c) in
  let chained (r : Completion Value * World) :=
    completion r = Normal this /\
    _dirty (self (after r)) = _dirty (self w) /\
    pixels (self (after r)) = pixels (self w) /\
    imageData (self (after r)) = imageData (self w) in
  ((exists stops,
      sent (call_beginLinearGradientFill cs rs x0 y0 x1 y1) w =
        [ctx_createLinearGradient x0 y0 x1 y1;
         ctx_assign "fillStyle" (gradient (Linear x0 y0 x1 y1) stops)] /\
      paired stops) /\
   chained (prototype.beginLinearGradientFill cs rs x0 y0 x1 y1 w)) /\
  ((exists stops,
      sent (call_beginLinearGradientStroke cs rs x0 y0 x1 y1) w =
        [ctx_createLinearGradient x0 y0 x1 y1;
         ctx_assign "strokeStyle" (gradient (Linear x0 y0 x1 y1) stops)] /\
      paired stops) /\
   chained (prototype.beginLinearGradientStroke cs rs x0 y0 x1 y1 w)) /\
  ((exists stops,
      sent (call_beginRadialGradientStroke cs rs x0 y0 r0 x1 y1 r1) w =
        [ctx_createRadialGradient x0 y0 r0 x1 y1 r1;
         ctx_assign "strokeStyle" (gradient (Radial x0 y0 r0 x1 y1 r1) stops)] /\
      paired stops) /\
   chained (prototype.beginRadialGradientStroke cs rs x0 y0 r0 x1 y1 r1 w)).
Proof.
  cbv zeta. rewrite !sent_requests. cbn [requests].
  repeat split; try (by js_step).
  - destruct (addColorStops_fresh cs rs (Linear x0 y0 x1 y1)) as (stops & -> & H).
    by exists stops.
  - destruct (addColorStops_fresh cs rs (Linear x0 y0 x1 y1)) as (stops & -> & H).
    by exists stops.
  - destruct (addColorStops_fresh cs rs (Radial x0 y0 r0 x1 y1 r1)) as (stops & -> & H).
    by exists stops.
Qed.

(** ** The alias table *)

(** X16: of the twenty EaselJS aliases assigned after the prototype
    literal, eighteen hold the function of the method they name; [rf] and
    [ef] hold [undefined], because the literal defines neither
    [beginRadialGradientFill] nor [endFill], so calling them fails.  No
    alias overwrites a method of the literal. *)
Theorem aliases_rf_and_ef_are_undefined :
  Forall (fun a : string * string =>
            prototype_object !! a.1 =
              Some (if bool_decide (a.1 ∈ ["rf"; "ef"]) then None else Some a.2))
         alias_assignments /\
  prototype_object !! "rf" = Some None /\
  prototype_object !! "ef" = Some None /\
  Forall (fun n => prototype_object !! n = Some (Some n)) method_names.
Proof.
  split; [|split; [|split]]; try (by vm_compute).
  - unfold alias_assignments. repeat constructor; by vm_compute.
  - unfold method_names. repeat constructor; by vm_compute.
Qed.


(** ** The cached image and the drawing calls *)

Lemma cache_invoke (m : MethodCall) (w : World) :
  touches_cache m = false ->
  imageData (self (after (invoke m w))) = imageData (self w) /\
  pixels (self (after (invoke m w))) = pixels (self w).
Proof.
  destruct m; try discriminate; intros _; cbn [invoke]; try (by js_step).
  - unfold prototype.addTo, mbind, JS_bind. by rewrite addTo_from_spec.
  - js_step. destruct (_ && _); [destruct (data32 (self w))|]; done.
  - js_step. destruct (_ && _); [destruct (data32 (self w))|]; done.
  - js_step. destruct (_dirty (self w)); [|done].
    by destruct (RenderType_eqb _ _).
Qed.

Lemma cache_run (calls : list MethodCall) (w : World) :
  forallb (fun m => negb (touches_cache m)) calls = true ->
  imageData (self (run calls w)) = imageData (self w) /\
  pixels (self (run calls w)) = pixels (self w).
Proof.
  revert w. induction calls as [|m rest IH]; intros w Hc; [done|].
  cbn [forallb] in Hc. apply andb_true_iff in Hc as [Hm Hc].
  apply negb_true_iff in Hm. rewrite run_cons.
  destruct (IH (after (invoke m w)) Hc) as [-> ->]. by apply cache_invoke.
Qed.

(** X17: the cached image is not refreshed by drawing.  Calls other than
    [refreshBuffer], [setPixel32] and [setPixel] leave [imageData] and
    [pixels] as they were, whatever they paint through the context.  So
    the image a later [setPixel32] hands to [putImageData] is the one
    cached before those calls with the single new entry: nothing drawn in
    between is in it. *)
Theorem setPixel32_puts_the_stale_image (calls : list MethodCall) (w : World)
    (x y red green blue alpha : Z) :
  int32_surface (self w) ->
  forallb (fun m => negb (touches_cache m)) calls = true ->
  0 <= x < width (self w) -> 0 <= y < height (self w) ->
  let w1 := run calls w in
  imageData (self w1) = imageData (self w) /\
  sent (call_setPixel32 x y red green blue alpha) w1 =
    [ctx_putImageData
       (mkImageData
          (<[Z.to_nat (pixel_index (self w) x y) := pack red green blue alpha]>
             (data (imageData (self w))))
          (has_buffer (imageData (self w))))
       (Int 0) (Int 0)].
Proof.
  intros [Hp Hlen] Hc Hx Hy. cbv zeta.
  destruct (cache_run calls w Hc) as [Hi Hpx]. split; [done|].
  assert (Hw : width (self (run calls w)) = width (self w)).
  { pose proof (fixed_run calls w) as H. unfold fixed_part in H.
    by injection H as _ _ H _ _ _ _ _ _ _. }
  assert (Hh : height (self (run calls w)) = height (self w)).
  { pose proof (fixed_run calls w) as H. unfold fixed_part in H.
    by injection H as _ _ _ H _ _ _ _ _ _. }
  pose proof (grid_index (self w) x y Hx Hy) as Hidx.
  rewrite sent_requests. cbn [requests].
  rewrite grid_accepted by lia.
  unfold pixels_store. rewrite Hpx, Hp. cbn [imageData with_imageData].
  unfold pixel_index in *. rewrite Hi, Hw.
  rewrite int32_store_in by lia. by rewrite pack_int32.
Qed.

Lemma setPixel32_puts_the_stale_image_witness :
  (int32_surface (self sample_refreshed) /\
   forallb (fun m => negb (touches_cache m))
     [call_fillRect (Int 0) (Int 0) (Int 4) (Int 4); call_render] = true /\
   0 <= 1 < width (self sample_refreshed) /\ 0 <= 1 < height (self sample_refreshed)) /\
  imageData (self (run [call_fillRect (Int 0) (Int 0) (Int 4) (Int 4); call_render]
                     sample_refreshed)) =
    imageData (self sample_refreshed).
Proof.
  assert (H0 : int32_surface (self sample_refreshed)) by (split; reflexivity).
  assert (H1 : 0 <= 1 < width (self sample_refreshed)) by (by vm_compute).
  assert (H2 : 0 <= 1 < height (self sample_refreshed)) by (by vm_compute).
  split; [done|].
  apply (proj1 (setPixel32_puts_the_stale_image
                  [call_fillRect (Int 0) (Int 0) (Int 4) (Int 4); call_render]
                  sample_refreshed 1 1 10 20 30 200 H0 eq_refl H1 H2)).
Defined.
